(** * bdjuno x/wasm module: message handlers and record constructors

    A shallow embedding of [modules/wasm] message handling ([HandleMsg] and
    the per-message handlers) and of the record constructors of
    [types/wasm.go], together with the library routines they call
    ([strconv.ParseInt], [base64.StdEncoding.DecodeString], the juno event
    and attribute lookups). *)

From Stdlib Require Import ZArith List String Ascii Bool Lia Zbitwise.
Import ListNotations.
Open Scope string_scope.
Open Scope list_scope.
Open Scope Z_scope.

(** ** Go bytes and strings

    A Go [byte] is an 8-bit character, a Go [string] a sequence of bytes and
    a [[]byte] a list of them; [string(bz)] and [[]byte(s)] copy the bytes. *)

Definition bytes := list ascii.

Definition byte_val (c : ascii) : Z := Z.of_N (N_of_ascii c).

(** Go's [byte(x)] on an unsigned integer keeps the low eight bits. *)
Definition to_byte (z : Z) : ascii := ascii_of_N (Z.to_N (Z.land z 255)).

Definition string_of_bytes (bz : bytes) : string := string_of_list_ascii bz.
Definition bytes_of_string (s : string) : bytes := list_ascii_of_string s.

(** ** Errors

    Go errors are values carrying a message.  [Errorf format cause] stands for
    [fmt.Errorf(format, cause)] where [format] ends in [%s]: the handler's
    annotation followed by the cause's text. *)

Inductive NumErrKind : Type := ErrSyntax | ErrRange.

Inductive error : Type :=
| NotFound (what : string) (name : string) (txHash : string)
| CorruptInputError (offset : Z)
| NumError (func : string) (num : string) (kind : NumErrKind)
| ExternalError (msg : string)
| Errorf (format : string) (cause : error).

(** ** encoding/base64, [StdEncoding] *)

Module Base64.

Definition encodeStd : string :=
  "ABCDEFGHIJKLMNOPQRSTUVWXYZabcdefghijklmnopqrstuvwxyz0123456789+/".

Definition padChar : ascii := "="%char.

(** [enc.encode[v]] *)
Definition encode (v : Z) : ascii :=
  nth (Z.to_nat v) (bytes_of_string encodeStd) "000"%char.

Fixpoint index_of (c : ascii) (l : list ascii) (i : Z) : Z :=
  match l with
  | [] => 255
  | x :: l' => if Ascii.eqb x c then i else index_of c l' (i + 1)
  end.

(** [enc.decodeMap[c]]: the position of [c] in the alphabet, [0xff] for a
    byte outside it. *)
Definition decodeMap (c : ascii) : Z := index_of c (bytes_of_string encodeStd) 0.

Definition is_newline (c : ascii) : bool :=
  Ascii.eqb c "010"%char || Ascii.eqb c "013"%char.

(** Three bytes as a 24-bit word, four 6-bit values as a 24-bit word, and
    the 6-bit value at a bit offset of a word. *)
Definition pack3 (a b c : Z) : Z :=
  Z.lor (Z.lor (Z.shiftl a 16) (Z.shiftl b 8)) c.

Definition pack4 (d0 d1 d2 d3 : Z) : Z :=
  Z.lor (Z.lor (Z.lor (Z.shiftl d0 18) (Z.shiftl d1 12)) (Z.shiftl d2 6)) d3.

Definition sextet (val k : Z) : Z := Z.land (Z.shiftr val k) 63.

(** The loops of [Encode]: three source bytes give four characters; a
    remainder of one or two bytes is padded with [=]. *)
Fixpoint Encode (src : bytes) : bytes :=
  match src with
  | [] => []
  | [a] =>
      let val := Z.shiftl (byte_val a) 16 in
      [ encode (sextet val 18); encode (sextet val 12); padChar; padChar ]
  | [a; b] =>
      let val := Z.lor (Z.shiftl (byte_val a) 16) (Z.shiftl (byte_val b) 8) in
      [ encode (sextet val 18); encode (sextet val 12); encode (sextet val 6);
        padChar ]
  | a :: b :: c :: rest =>
      let val := pack3 (byte_val a) (byte_val b) (byte_val c) in
      encode (sextet val 18)
        :: encode (sextet val 12)
        :: encode (sextet val 6)
        :: encode (Z.land val 63)
        :: Encode rest
  end.

Definition EncodeToString (src : bytes) : string := string_of_bytes (Encode src).

(** The tail of [decodeQuantum]: the collected 6-bit values [dbuf] (missing
    ones are zero) are packed into 24 bits, of which [dlen - 1] bytes are
    written.  [StdEncoding] is not strict: the unused low bits are dropped
    without a check. *)
Definition assemble (dbuf : list Z) : bytes :=
  let d := fun i => nth i dbuf 0 in
  let val := pack4 (d 0%nat) (d 1%nat) (d 2%nat) (d 3%nat) in
  firstn (List.length dbuf - 1)
         [ to_byte (Z.shiftr val 16); to_byte (Z.shiftr val 8); to_byte (Z.shiftr val 0) ].

(** [for si < len(src) && (src[si] == '\n' || src[si] == '\r') { si++ }] *)
Fixpoint skip_newlines (src : bytes) (si : Z) : bytes * Z :=
  match src with
  | c :: rest => if is_newline c then skip_newlines rest (si + 1) else (src, si)
  | [] => (src, si)
  end.

(** After the padding of a quantum: newlines are skipped, anything left is
    trailing garbage; the bytes of the quantum are written either way. *)
Definition after_padding (rest : bytes) (si : Z) (dbuf : list Z) (out : bytes)
  : bytes * option error :=
  let '(rest', si') := skip_newlines rest si in
  let err := match rest' with
             | [] => None
             | _ :: _ => Some (CorruptInputError si')
             end in
  (out ++ assemble dbuf, err).

(** [Decode]: the loop over [decodeQuantum], one source byte at a time.
    [total] is [len(src)], [si] the index of the next byte, [dbuf] the values
    collected for the current quantum ([j = length dbuf]) and [out] the bytes
    written so far.  The result is [dst[:n]] and the error. *)
Fixpoint decode_from (total : Z) (src : bytes) (si : Z) (dbuf : list Z) (out : bytes)
  {struct src} : bytes * option error :=
  match src with
  | [] =>
      match dbuf with
      | [] => (out, None)
      | _ :: _ => (out, Some (CorruptInputError (si - Z.of_nat (List.length dbuf))))
      end
  | c :: rest =>
      let si := si + 1 in
      let v := decodeMap c in
      if negb (v =? 255) then
        let dbuf' := dbuf ++ [v] in
        if (List.length dbuf' =? 4)%nat
        then decode_from total rest si [] (out ++ assemble dbuf')
        else decode_from total rest si dbuf' out
      else if is_newline c then decode_from total rest si dbuf out
      else if negb (Ascii.eqb c padChar) then (out, Some (CorruptInputError (si - 1)))
      else
        match List.length dbuf with
        | 0%nat | 1%nat => (out, Some (CorruptInputError (si - 1)))
        | 2%nat =>
            let '(rest', si') := skip_newlines rest si in
            match rest' with
            | [] => (out, Some (CorruptInputError total))
            | c' :: rest'' =>
                if negb (Ascii.eqb c' padChar)
                then (out, Some (CorruptInputError (si' - 1)))
                else after_padding rest'' (si' + 1) dbuf out
            end
        | _ => after_padding rest si dbuf out
        end
  end.

Definition Decode (src : bytes) : bytes * option error :=
  decode_from (Z.of_nat (List.length src)) src 0 [] [].

(** [DecodeString] returns the bytes decoded so far together with the error;
    callers that test [err != nil] first see either the error or the bytes. *)
Definition DecodeString (s : string) : error + bytes :=
  match Decode (bytes_of_string s) with
  | (_, Some e) => inl e
  | (bz, None) => inr bz
  end.

End Base64.

(** ** strconv.ParseInt *)

Module Strconv.

Definition syntaxError (fn str : string) : error := NumError fn str ErrSyntax.
Definition rangeError (fn str : string) : error := NumError fn str ErrRange.

Definition maxUint64 : Z := 2 ^ 64 - 1.

(** [lower(c)] is [c | ('x' - 'X')]. *)
Definition lower (c : Z) : Z := Z.lor c 32.

(** The digit switch of [ParseUint]: the digit a byte stands for, [None] in
    the default case. *)
Definition digit (c : ascii) : option Z :=
  let c := byte_val c in
  if (48 <=? c) && (c <=? 57) then Some (c - 48)
  else if (97 <=? lower c) && (lower c <=? 122) then Some (lower c - 97 + 10)
  else None.

(** The loop of [ParseUint] in base 10 with [bitSize] 64, on unsigned 64-bit
    arithmetic; [n] is the value so far. *)
Fixpoint parseUint_loop (s0 : string) (cs : bytes) (n : Z) : Z * option error :=
  let cutoff := maxUint64 / 10 + 1 in
  let maxVal := (2 ^ 64 - 1) mod 2 ^ 64 in
  match cs with
  | [] => (n, None)
  | c :: cs' =>
      match digit c with
      | None => (0, Some (syntaxError "ParseUint" s0))
      | Some d =>
          if d >=? 10 then (0, Some (syntaxError "ParseUint" s0))
          else if n >=? cutoff then (maxVal, Some (rangeError "ParseUint" s0))
          else
            let n' := (n * 10) mod 2 ^ 64 in
            let n1 := (n' + d) mod 2 ^ 64 in
            if (n1 <? n') || (n1 >? maxVal)
            then (maxVal, Some (rangeError "ParseUint" s0))
            else parseUint_loop s0 cs' n1
      end
  end.

Definition ParseUint (s : string) : Z * option error :=
  if String.eqb s "" then (0, Some (syntaxError "ParseUint" s))
  else parseUint_loop s (bytes_of_string s) 0.

(** Conversion of an unsigned 64-bit value to [int64], and negation in
    [int64]. *)
Definition to_int64 (z : Z) : Z := (z + 2 ^ 63) mod 2 ^ 64 - 2 ^ 63.

Definition is_range (e : error) : bool :=
  match e with
  | NumError _ _ ErrRange => true
  | _ => false
  end.

(** The second half of [ParseInt]: the answer [(un, err)] of [ParseUint] is
    passed on when it is a syntax error, and checked against the range of
    [int64] otherwise. *)
Definition parseInt_tail (s0 : string) (neg : bool) (r : Z * option error)
  : Z * option error :=
  let fnParseInt := "ParseInt" in
  let '(un, err) := r in
  if match err with Some e => negb (is_range e) | None => false end
  then (0, Some (syntaxError fnParseInt s0))
  else
    let cutoff := 2 ^ 63 in
    if negb neg && (un >=? cutoff)
    then (to_int64 (cutoff - 1), Some (rangeError fnParseInt s0))
    else if neg && (un >? cutoff)
    then (to_int64 (- to_int64 cutoff), Some (rangeError fnParseInt s0))
    else (if neg then to_int64 (- to_int64 un) else to_int64 un, None).

(** [ParseInt(s, 10, 64)]: the value and the error, as Go returns them. *)
Definition ParseInt (s : string) : Z * option error :=
  let fnParseInt := "ParseInt" in
  match s with
  | EmptyString => (0, Some (syntaxError fnParseInt s))
  | String c0 s1 =>
      let s0 := s in
      let '(neg, s') :=
        if Ascii.eqb c0 "+"%char then (false, s1)
        else if Ascii.eqb c0 "-"%char then (true, s1)
        else (false, s) in
      parseInt_tail s0 neg (ParseUint s')
  end.

(** What the specification calls a valid decimal integer string: an optional
    sign followed by one or more decimal digits, and the integer it
    denotes. *)
Definition is_decimal_digit (c : ascii) : bool :=
  (48 <=? byte_val c) && (byte_val c <=? 57).

Fixpoint digits_value (cs : bytes) (acc : Z) : option Z :=
  match cs with
  | [] => Some acc
  | c :: cs' =>
      if is_decimal_digit c then digits_value cs' (acc * 10 + (byte_val c - 48))
      else None
  end.

Definition unsigned_value (cs : bytes) : option Z :=
  match cs with
  | [] => None
  | _ :: _ => digits_value cs 0
  end.

Definition decimal_value (s : string) : option Z :=
  match bytes_of_string s with
  | [] => None
  | c :: cs =>
      if Ascii.eqb c "+"%char then unsigned_value cs
      else if Ascii.eqb c "-"%char then option_map Z.opp (unsigned_value cs)
      else unsigned_value (c :: cs)
  end.

End Strconv.

(** ** Events, transactions and messages *)

Record Attribute : Type := { Key : string; Value : string }.

Record StringEvent : Type := { Type_ : string; Attributes : list Attribute }.

Record ABCIMessageLog : Type :=
  { MsgIndex : Z; Log : string; Events : list StringEvent }.

(** The fields of [juno.Tx] the handlers read. *)
Record Tx : Type :=
  { Logs : list ABCIMessageLog;
    Height : Z;
    Timestamp : string;
    TxHash : string }.

Record Coin : Type := { Denom : string; Amount : Z }.
Definition Coins := list Coin.

Record AccessConfig : Type := { Permission : Z; Address : string }.

Definition RawContractMessage := bytes.

Record Time : Type := { unixNano : Z; zoneOffset : Z }.

Record MsgStoreCode : Type :=
  { sc_Sender : string;
    sc_WASMByteCode : bytes;
    sc_InstantiatePermission : option AccessConfig }.

Record MsgInstantiateContract : Type :=
  { ic_Sender : string;
    ic_Admin : string;
    ic_CodeID : Z;
    ic_Label : string;
    ic_Msg : RawContractMessage;
    ic_Funds : Coins }.

Record MsgExecuteContract : Type :=
  { ec_Sender : string;
    ec_Contract : string;
    ec_Msg : RawContractMessage;
    ec_Funds : Coins }.

Record MsgMigrateContract : Type :=
  { mc_Sender : string;
    mc_Contract : string;
    mc_CodeID : Z;
    mc_Msg : RawContractMessage }.

Record MsgUpdateAdmin : Type :=
  { ua_Sender : string; ua_NewAdmin : string; ua_Contract : string }.

Record MsgClearAdmin : Type := { ca_Sender : string; ca_Contract : string }.

(** The dynamic type of an [sdk.Msg]: the six kinds of the type switch of
    [HandleMsg], and any other message. *)
Inductive Msg : Type :=
| StoreCode (msg : MsgStoreCode)
| InstantiateContract (msg : MsgInstantiateContract)
| ExecuteContract (msg : MsgExecuteContract)
| MigrateContract (msg : MsgMigrateContract)
| UpdateAdmin (msg : MsgUpdateAdmin)
| ClearAdmin (msg : MsgClearAdmin)
| OtherMsg (typeURL : string).

(** Modelled from the spec: the event types and attribute keys are constants
    of the chain's wasm module ([wasmtypes.EventTypeStoreCode] and the like),
    which this repository imports; they carry the names the specification's
    extraction table gives them. *)
Definition EventTypeStoreCode : string := "store-code".
Definition EventTypeInstantiate : string := "instantiate".
Definition EventTypeExecute : string := "execute".
Definition EventTypeMigrate : string := "migrate".
Definition AttributeKeyCodeID : string := "code-identifier".
Definition AttributeKeyContractAddr : string := "contract-address".
Definition AttributeKeyResultDataHex : string := "result-data".

(** Modelled from the spec: [tx.FindEventByType] belongs to the juno library
    and is not part of this repository.  It searches the events attached to
    the message at [index] and returns the first one of the given type; it is
    total, and the absence of such an event is a failure of its own. *)
Definition FindEventByType (tx : Tx) (index : Z) (eventType : string)
  : error + StringEvent :=
  let events :=
    if index <? 0 then []
    else match nth_error (Logs tx) (Z.to_nat index) with
         | Some log => Events log
         | None => []
         end in
  match find (fun ev => String.eqb (Type_ ev) eventType) events with
  | Some ev => inr ev
  | None => inl (NotFound "event" eventType (TxHash tx))
  end.

(** Modelled from the spec: [tx.FindAttributeByKey], of the juno library as
    well, returns the value of the first attribute of the event with the
    given key, and fails when there is none. *)
Definition FindAttributeByKey (tx : Tx) (event : StringEvent) (attrKey : string)
  : error + string :=
  match find (fun a => String.eqb (Key a) attrKey) (Attributes event) with
  | Some a => inr (Value a)
  | None => inl (NotFound "attribute" attrKey (TxHash tx))
  end.

(** ** types/wasm.go *)

(** [WasmParams], the parameters of the x/wasm module. *)
Record WasmParams : Type :=
  { CodeUploadAccess : option AccessConfig;
    InstantiateDefaultPermission : Z;
    MaxWasmCodeSize : Z;
    wp_Height : Z }.

Definition NewWasmParams (codeUploadAccess : option AccessConfig)
  (instantiateDefaultPermission : Z) (maxWasmCodeSize : Z) (height : Z) : WasmParams :=
  {| CodeUploadAccess := codeUploadAccess;
     InstantiateDefaultPermission := instantiateDefaultPermission;
     MaxWasmCodeSize := maxWasmCodeSize;
     wp_Height := height |}.

(** A signed 64-bit integer as a [uint64]: Go's [uint64(x)], which wraps a
    negative value around. *)
Definition to_uint64 (z : Z) : Z := z mod 2 ^ 64.

(** [WasmCode].  The field [CodeID] is a [uint64], a value from [0] to
    [2 ^ 64 - 1]. *)
Record WasmCode : Type :=
  { wc_Sender : string;
    wc_WasmByteCode : bytes;
    wc_InstantiatePermission : option AccessConfig;
    wc_CodeID : Z;
    wc_Height : Z }.

(** [NewWasmCode].  Its parameter [codeID] is a [uint64]; the store-code
    handler hands over the [int64] that [strconv.ParseInt] returned, which
    reaches the field as a [uint64]: the conversion between the two types is
    written out here, where the parameter is bound. *)
Definition NewWasmCode (sender : string) (wasmByteCode : bytes)
  (initPermission : option AccessConfig) (codeID : Z) (height : Z) : WasmCode :=
  {| wc_Sender := sender;
     wc_WasmByteCode := wasmByteCode;
     wc_InstantiatePermission := initPermission;
     wc_CodeID := to_uint64 codeID;
     wc_Height := height |}.

Record WasmContract : Type :=
  { Sender : string;
    Creator : string;
    Admin : string;
    CodeID : Z;
    Label : string;
    RawContractMsg : RawContractMessage;
    Funds : Coins;
    ContractAddress : string;
    Data : string;
    InstantiatedAt : Time;
    ContractInfoExtension : string;
    wct_Height : Z }.

Record WasmExecuteContract : Type :=
  { we_Sender : string;
    we_ContractAddress : string;
    we_RawContractMsg : bytes;
    we_Funds : Coins;
    we_Data : string;
    ExecutedAt : Time;
    we_Height : Z }.

Record ContractInfo : Type := { ci_Creator : string; ci_Extension : string }.

(** The calls a handler makes on the transaction, on the contract-metadata
    source and on the database, in the order it makes them. *)
Inductive Call : Type :=
| CallFindEventByType (index : Z) (eventType : string)
| CallFindAttributeByKey (event : StringEvent) (attrKey : string)
| CallGetContractInfo (height : Z) (contractAddr : string)
| CallSaveWasmCode (code : WasmCode)
| CallSaveWasmContract (contract : WasmContract)
| CallSaveWasmExecuteContract (execute : WasmExecuteContract)
| CallUpdateContractWithMsgMigrateContract
    (sender contractAddress : string) (codeID : Z) (rawContractMsg : bytes)
    (data : string)
| CallUpdateContractAdmin (sender contractAddress newAdmin : string).

Definition is_persistence (c : Call) : bool :=
  match c with
  | CallSaveWasmCode _ | CallSaveWasmContract _ | CallSaveWasmExecuteContract _
  | CallUpdateContractWithMsgMigrateContract _ _ _ _ _
  | CallUpdateContractAdmin _ _ _ => true
  | _ => false
  end.

Definition is_lookup (c : Call) : bool :=
  match c with
  | CallFindEventByType _ _ | CallFindAttributeByKey _ _ => true
  | _ => false
  end.

Definition is_resolver (c : Call) : bool :=
  match c with
  | CallGetContractInfo _ _ => true
  | _ => false
  end.

(** The collaborators of the module: the source of contract metadata and the
    database, each an interface. *)
Record Source : Type :=
  { GetContractInfo : Z -> string -> error + ContractInfo }.

Record Database : Type :=
  { SaveWasmCode : WasmCode -> option error;
    SaveWasmContract : WasmContract -> option error;
    SaveWasmExecuteContract : WasmExecuteContract -> option error;
    UpdateContractWithMsgMigrateContract :
      string -> string -> Z -> bytes -> string -> option error;
    UpdateContractAdmin : string -> string -> string -> option error }.

(** The receiver of the handlers, [Module] in the source. *)
Record WasmModule : Type := { db : Database; source : Source }.

(** ** The handler monad: a trace of calls and an early return on error *)

Definition M (A : Type) : Type := list Call -> (error + A) * list Call.

Definition ret {A : Type} (a : A) : M A := fun t => (inr a, t).

Definition bind {A B : Type} (m : M A) (k : A -> M B) : M B :=
  fun t =>
    match m t with
    | (inl e, t') => (inl e, t')
    | (inr a, t') => k a t'
    end.

(** A call on a collaborator: it is recorded, and yields the collaborator's
    answer. *)
Definition call {A : Type} (c : Call) (r : error + A) : M A :=
  fun t => (r, t ++ [c]).

(** A computation of the handler's own. *)
Definition lift {A : Type} (r : error + A) : M A := fun t => (r, t).

(** [if err != nil { return fmt.Errorf(format, err) }] *)
Definition orErrorf {A : Type} (m : M A) (format : string) : M A :=
  fun t =>
    match m t with
    | (inl e, t') => (inl (Errorf format e), t')
    | (inr a, t') => (inr a, t')
    end.

(** [return m.db.Op(...)]: the database's answer is the handler's. *)
Definition db_call (c : Call) (r : option error) : M unit :=
  call c (match r with Some e => inl e | None => inr tt end).

Notation "x <- m 'or' f ;; k" := (bind (orErrorf m f) (fun x => k))
  (at level 61, m at next level, f at next level, right associativity).

(** The value and the error of a Go call as a result. *)
Definition result_of {A : Type} (r : A * option error) : error + A :=
  match r with
  | (_, Some e) => inl e
  | (a, None) => inr a
  end.

Section Handlers.

(** [RawContractMessage.MarshalJSON], of the chain's wasm module: the bytes
    and the error it returns. *)
Variable MarshalJSON : RawContractMessage -> bytes * option error.

(** [time.Parse(layout, value)], of the Go library. *)
Variable time_Parse : string -> string -> error + Time.

Definition RFC3339 : string := "2006-01-02T15:04:05Z07:00".

(** *** types/wasm.go, continued *)

Definition NewWasmContract
  (sender admin : string) (codeID : Z) (label : string)
  (rawMsg : RawContractMessage) (funds : Coins) (contractAddress data : string)
  (instantiatedAt : Time) (creator contractInfoExtension : string) (height : Z)
  : WasmContract :=
  let '(rawContractMsg, _) := MarshalJSON rawMsg in
  {| Sender := sender;
     Creator := creator;
     Admin := admin;
     CodeID := codeID;
     Label := label;
     RawContractMsg := rawContractMsg;
     Funds := funds;
     ContractAddress := contractAddress;
     Data := data;
     InstantiatedAt := instantiatedAt;
     ContractInfoExtension := contractInfoExtension;
     wct_Height := height |}.

Definition NewWasmExecuteContract
  (sender contractAddress : string) (rawMsg : RawContractMessage)
  (funds : Coins) (data : string) (executedAt : Time) (height : Z)
  : WasmExecuteContract :=
  let '(rawContractMsg, _) := MarshalJSON rawMsg in
  {| we_Sender := sender;
     we_ContractAddress := contractAddress;
     we_RawContractMsg := rawContractMsg;
     we_Funds := funds;
     we_Data := data;
     ExecutedAt := executedAt;
     we_Height := height |}.

(** *** modules/wasm: the handlers

    The handlers hand the message itself to the constructors of
    [types/wasm.go]; the constructors take its fields one by one, which is how
    the calls are written here. *)

Variable m : WasmModule.

Definition tx_FindEventByType (tx : Tx) (index : Z) (eventType : string)
  : M StringEvent :=
  call (CallFindEventByType index eventType) (FindEventByType tx index eventType).

Definition tx_FindAttributeByKey (tx : Tx) (event : StringEvent) (attrKey : string)
  : M string :=
  call (CallFindAttributeByKey event attrKey) (FindAttributeByKey tx event attrKey).

Definition source_GetContractInfo (height : Z) (contractAddr : string)
  : M ContractInfo :=
  call (CallGetContractInfo height contractAddr)
       (GetContractInfo (source m) height contractAddr).

Definition HandleMsgStoreCode (index : Z) (tx : Tx) (msg : MsgStoreCode) : M unit :=
  event <- tx_FindEventByType tx index EventTypeStoreCode
    or "error while searching for EventTypeInstantiate: %s" ;;
  codeIDKey <- tx_FindAttributeByKey tx event AttributeKeyCodeID
    or "error while searching for AttributeKeyContractAddr: %s" ;;
  codeID <- lift (result_of (Strconv.ParseInt codeIDKey))
    or "error while parsing code id to int64: %s" ;;
  let code := NewWasmCode (sc_Sender msg) (sc_WASMByteCode msg)
                          (sc_InstantiatePermission msg) codeID (Height tx) in
  db_call (CallSaveWasmCode code) (SaveWasmCode (db m) code).

Definition HandleMsgInstantiateContract (index : Z) (tx : Tx)
  (msg : MsgInstantiateContract) : M unit :=
  event <- tx_FindEventByType tx index EventTypeInstantiate
    or "error while searching for EventTypeInstantiate: %s" ;;
  contractAddress <- tx_FindAttributeByKey tx event AttributeKeyContractAddr
    or "error while searching for AttributeKeyContractAddr: %s" ;;
  resultData <- tx_FindAttributeByKey tx event AttributeKeyResultDataHex
    or "error while searching for AttributeKeyResultDataHex: %s" ;;
  resultDataBz <- lift (Base64.DecodeString resultData)
    or "error while decoding result data: %s" ;;
  contractInfo <- source_GetContractInfo (Height tx) contractAddress
    or "error while getting proposal: %s" ;;
  timestamp <- lift (time_Parse RFC3339 (Timestamp tx))
    or "error while parsing time: %s" ;;
  let contract :=
    NewWasmContract (ic_Sender msg) (ic_Admin msg) (ic_CodeID msg) (ic_Label msg)
      (ic_Msg msg) (ic_Funds msg) contractAddress (string_of_bytes resultDataBz)
      timestamp (ci_Creator contractInfo) (ci_Extension contractInfo) (Height tx) in
  db_call (CallSaveWasmContract contract) (SaveWasmContract (db m) contract).

Definition HandleMsgExecuteContract (index : Z) (tx : Tx)
  (msg : MsgExecuteContract) : M unit :=
  event <- tx_FindEventByType tx index EventTypeExecute
    or "error while searching for EventTypeExecute: %s" ;;
  resultData <- tx_FindAttributeByKey tx event AttributeKeyResultDataHex
    or "error while searching for AttributeKeyResultDataHex: %s" ;;
  resultDataBz <- lift (Base64.DecodeString resultData)
    or "error while decoding result data: %s" ;;
  timestamp <- lift (time_Parse RFC3339 (Timestamp tx))
    or "error while parsing time: %s" ;;
  let execute :=
    NewWasmExecuteContract (ec_Sender msg) (ec_Contract msg) (ec_Msg msg)
      (ec_Funds msg) (string_of_bytes resultDataBz) timestamp (Height tx) in
  db_call (CallSaveWasmExecuteContract execute)
          (SaveWasmExecuteContract (db m) execute).

Definition HandleMsgMigrateContract (index : Z) (tx : Tx)
  (msg : MsgMigrateContract) : M unit :=
  event <- tx_FindEventByType tx index EventTypeMigrate
    or "error while searching for EventTypeMigrate: %s" ;;
  resultData <- tx_FindAttributeByKey tx event AttributeKeyResultDataHex
    or "error while searching for AttributeKeyResultDataHex: %s" ;;
  resultDataBz <- lift (Base64.DecodeString resultData)
    or "error while decoding result data: %s" ;;
  db_call
    (CallUpdateContractWithMsgMigrateContract (mc_Sender msg) (mc_Contract msg)
       (mc_CodeID msg) (mc_Msg msg) (string_of_bytes resultDataBz))
    (UpdateContractWithMsgMigrateContract (db m) (mc_Sender msg) (mc_Contract msg)
       (mc_CodeID msg) (mc_Msg msg) (string_of_bytes resultDataBz)).

Definition HandleMsgUpdateAdmin (msg : MsgUpdateAdmin) : M unit :=
  db_call
    (CallUpdateContractAdmin (ua_Sender msg) (ua_Contract msg) (ua_NewAdmin msg))
    (UpdateContractAdmin (db m) (ua_Sender msg) (ua_Contract msg) (ua_NewAdmin msg)).

Definition HandleMsgClearAdmin (msg : MsgClearAdmin) : M unit :=
  db_call
    (CallUpdateContractAdmin (ca_Sender msg) (ca_Contract msg) "")
    (UpdateContractAdmin (db m) (ca_Sender msg) (ca_Contract msg) "").

(** [HandleMsg] implements [modules.MessageModule]. *)
Definition HandleMsg (index : Z) (msg : Msg) (tx : Tx) : M unit :=
  if (List.length (Logs tx) =? 0)%nat then ret tt
  else
    match msg with
    | StoreCode cosmosMsg => HandleMsgStoreCode index tx cosmosMsg
    | InstantiateContract cosmosMsg => HandleMsgInstantiateContract index tx cosmosMsg
    | ExecuteContract cosmosMsg => HandleMsgExecuteContract index tx cosmosMsg
    | MigrateContract cosmosMsg => HandleMsgMigrateContract index tx cosmosMsg
    | UpdateAdmin cosmosMsg => HandleMsgUpdateAdmin cosmosMsg
    | ClearAdmin cosmosMsg => HandleMsgClearAdmin cosmosMsg
    | OtherMsg _ => ret tt
    end.

(** The [error] a handler returns ([None] is [nil]) and the calls it made,
    starting from the calls [t] made before. *)
Definition run (h : M unit) (t : list Call) : option error * list Call :=
  match h t with
  | (inl e, t') => (Some e, t')
  | (inr _, t') => (None, t')
  end.

(** *** Failure of an extraction stage

    [extraction_fails tx index msg] holds when a stage of the extraction the
    handler of [msg] performs fails on [tx]: the lookup of the event, the
    lookup of an attribute in the event found, the decoding of an attribute
    found, the resolution of the metadata of the contract address found, or
    the parsing of the timestamp. *)
Inductive extraction_fails (tx : Tx) (index : Z) : Msg -> Prop :=
| store_event_fails msg e :
    FindEventByType tx index EventTypeStoreCode = inl e ->
    extraction_fails tx index (StoreCode msg)
| store_code_id_fails msg event e :
    FindEventByType tx index EventTypeStoreCode = inr event ->
    FindAttributeByKey tx event AttributeKeyCodeID = inl e ->
    extraction_fails tx index (StoreCode msg)
| store_parse_fails msg event codeIDKey e :
    FindEventByType tx index EventTypeStoreCode = inr event ->
    FindAttributeByKey tx event AttributeKeyCodeID = inr codeIDKey ->
    result_of (Strconv.ParseInt codeIDKey) = inl e ->
    extraction_fails tx index (StoreCode msg)
| instantiate_event_fails msg e :
    FindEventByType tx index EventTypeInstantiate = inl e ->
    extraction_fails tx index (InstantiateContract msg)
| instantiate_address_fails msg event e :
    FindEventByType tx index EventTypeInstantiate = inr event ->
    FindAttributeByKey tx event AttributeKeyContractAddr = inl e ->
    extraction_fails tx index (InstantiateContract msg)
| instantiate_result_fails msg event e :
    FindEventByType tx index EventTypeInstantiate = inr event ->
    FindAttributeByKey tx event AttributeKeyResultDataHex = inl e ->
    extraction_fails tx index (InstantiateContract msg)
| instantiate_decode_fails msg event resultData e :
    FindEventByType tx index EventTypeInstantiate = inr event ->
    FindAttributeByKey tx event AttributeKeyResultDataHex = inr resultData ->
    Base64.DecodeString resultData = inl e ->
    extraction_fails tx index (InstantiateContract msg)
| instantiate_resolver_fails msg event contractAddress e :
    FindEventByType tx index EventTypeInstantiate = inr event ->
    FindAttributeByKey tx event AttributeKeyContractAddr = inr contractAddress ->
    GetContractInfo (source m) (Height tx) contractAddress = inl e ->
    extraction_fails tx index (InstantiateContract msg)
| instantiate_time_fails msg e :
    time_Parse RFC3339 (Timestamp tx) = inl e ->
    extraction_fails tx index (InstantiateContract msg)
| execute_event_fails msg e :
    FindEventByType tx index EventTypeExecute = inl e ->
    extraction_fails tx index (ExecuteContract msg)
| execute_result_fails msg event e :
    FindEventByType tx index EventTypeExecute = inr event ->
    FindAttributeByKey tx event AttributeKeyResultDataHex = inl e ->
    extraction_fails tx index (ExecuteContract msg)
| execute_decode_fails msg event resultData e :
    FindEventByType tx index EventTypeExecute = inr event ->
    FindAttributeByKey tx event AttributeKeyResultDataHex = inr resultData ->
    Base64.DecodeString resultData = inl e ->
    extraction_fails tx index (ExecuteContract msg)
| execute_time_fails msg e :
    time_Parse RFC3339 (Timestamp tx) = inl e ->
    extraction_fails tx index (ExecuteContract msg)
| migrate_event_fails msg e :
    FindEventByType tx index EventTypeMigrate = inl e ->
    extraction_fails tx index (MigrateContract msg)
| migrate_result_fails msg event e :
    FindEventByType tx index EventTypeMigrate = inr event ->
    FindAttributeByKey tx event AttributeKeyResultDataHex = inl e ->
    extraction_fails tx index (MigrateContract msg)
| migrate_decode_fails msg event resultData e :
    FindEventByType tx index EventTypeMigrate = inr event ->
    FindAttributeByKey tx event AttributeKeyResultDataHex = inr resultData ->
    Base64.DecodeString resultData = inl e ->
    extraction_fails tx index (MigrateContract msg).

End Handlers.

(** ** Sample collaborators and transactions *)

Definition passMarshalJSON (r : RawContractMessage) : bytes * option error :=
  (r, None).

Definition failMarshalJSON (r : RawContractMessage) : bytes * option error :=
  ([], Some (ExternalError "json: error calling MarshalJSON")).

Definition sampleTimestamp : string := "2022-03-01T12:00:00Z".

Definition sample_time_Parse (layout value : string) : error + Time :=
  if String.eqb value sampleTimestamp
  then inr {| unixNano := 1646136000000000000; zoneOffset := 0 |}
  else inl (ExternalError "parsing time: cannot parse").

Definition sampleSource : Source :=
  {| GetContractInfo := fun height addr =>
       if String.eqb addr "wasm1contract"
       then inr {| ci_Creator := "wasm1creator"; ci_Extension := "" |}
       else inl (ExternalError "contract not found") |}.

Definition sampleDatabase : Database :=
  {| SaveWasmCode := fun _ => None;
     SaveWasmContract := fun _ => None;
     SaveWasmExecuteContract := fun _ => None;
     UpdateContractWithMsgMigrateContract := fun _ _ _ _ _ => None;
     UpdateContractAdmin := fun _ _ _ => None |}.

Definition sampleModule : WasmModule :=
  {| db := sampleDatabase; source := sampleSource |}.

Definition sampleTx (events : list StringEvent) : Tx :=
  {| Logs := [ {| MsgIndex := 0; Log := ""; Events := events |} ];
     Height := 100;
     Timestamp := sampleTimestamp;
     TxHash := "A1B2" |}.

Definition emptyTx : Tx :=
  {| Logs := []; Height := 100; Timestamp := sampleTimestamp; TxHash := "A1B2" |}.

Definition storeCodeEvent (codeID : string) : StringEvent :=
  {| Type_ := EventTypeStoreCode;
     Attributes := [ {| Key := AttributeKeyCodeID; Value := codeID |} ] |}.

Definition instantiateEvent (addr resultData : string) : StringEvent :=
  {| Type_ := EventTypeInstantiate;
     Attributes := [ {| Key := AttributeKeyContractAddr; Value := addr |};
                     {| Key := AttributeKeyResultDataHex; Value := resultData |} ] |}.

Definition resultEvent (eventType resultData : string) : StringEvent :=
  {| Type_ := eventType;
     Attributes := [ {| Key := AttributeKeyResultDataHex; Value := resultData |} ] |}.

Definition sampleStoreCode : MsgStoreCode :=
  {| sc_Sender := "wasm1sender";
     sc_WASMByteCode := bytes_of_string "wasm";
     sc_InstantiatePermission := None |}.

Definition sampleInstantiate : MsgInstantiateContract :=
  {| ic_Sender := "wasm1sender";
     ic_Admin := "wasm1admin";
     ic_CodeID := 42;
     ic_Label := "label";
     ic_Msg := bytes_of_string "{}";
     ic_Funds := [] |}.

Definition sampleExecute : MsgExecuteContract :=
  {| ec_Sender := "wasm1sender";
     ec_Contract := "wasm1contract";
     ec_Msg := bytes_of_string "{}";
     ec_Funds := [] |}.

Definition sampleMigrate : MsgMigrateContract :=
  {| mc_Sender := "wasm1sender";
     mc_Contract := "wasm1contract";
     mc_CodeID := 43;
     mc_Msg := bytes_of_string "{}" |}.

Definition sampleUpdateAdmin : MsgUpdateAdmin :=
  {| ua_Sender := "wasm1sender";
     ua_NewAdmin := "wasm1newadmin";
     ua_Contract := "wasm1contract" |}.

Definition sampleClearAdmin : MsgClearAdmin :=
  {| ca_Sender := "wasm1sender"; ca_Contract := "wasm1contract" |}.

Definition sampleHandleMsg (index : Z) (msg : Msg) (tx : Tx) : M unit :=
  HandleMsg passMarshalJSON sample_time_Parse sampleModule index msg tx.


(** ** Reading a trace of calls *)

(** The answer of the database to a call that is a database operation. *)
Definition db_answer (d : Database) (c : Call) : option error :=
  match c with
  | CallSaveWasmCode code => SaveWasmCode d code
  | CallSaveWasmContract contract => SaveWasmContract d contract
  | CallSaveWasmExecuteContract execute => SaveWasmExecuteContract d execute
  | CallUpdateContractWithMsgMigrateContract sender contractAddress codeID raw data =>
      UpdateContractWithMsgMigrateContract d sender contractAddress codeID raw data
  | CallUpdateContractAdmin sender contractAddress newAdmin =>
      UpdateContractAdmin d sender contractAddress newAdmin
  | _ => None
  end.

(** The kinds of message the type switch of [HandleMsg] has a case for. *)
Definition recognized (msg : Msg) : bool :=
  match msg with
  | OtherMsg _ => false
  | _ => true
  end.

(** The height a saved record carries. *)
Definition record_height (c : Call) : option Z :=
  match c with
  | CallSaveWasmCode code => Some (wc_Height code)
  | CallSaveWasmContract contract => Some (wct_Height contract)
  | CallSaveWasmExecuteContract execute => Some (we_Height execute)
  | _ => None
  end.

(** The sender a database operation is made for, and the sender of a
    message. *)
Definition call_sender (c : Call) : option string :=
  match c with
  | CallSaveWasmCode code => Some (wc_Sender code)
  | CallSaveWasmContract contract => Some (Sender contract)
  | CallSaveWasmExecuteContract execute => Some (we_Sender execute)
  | CallUpdateContractWithMsgMigrateContract sender _ _ _ _ => Some sender
  | CallUpdateContractAdmin sender _ _ => Some sender
  | _ => None
  end.

Definition msg_sender (msg : Msg) : option string :=
  match msg with
  | StoreCode msg => Some (sc_Sender msg)
  | InstantiateContract msg => Some (ic_Sender msg)
  | ExecuteContract msg => Some (ec_Sender msg)
  | MigrateContract msg => Some (mc_Sender msg)
  | UpdateAdmin msg => Some (ua_Sender msg)
  | ClearAdmin msg => Some (ca_Sender msg)
  | OtherMsg _ => None
  end.

(** The transaction with another timestamp. *)
Definition with_timestamp (tx : Tx) (timestamp : string) : Tx :=
  {| Logs := Logs tx; Height := Height tx; Timestamp := timestamp;
     TxHash := TxHash tx |}.

(** A byte the base64 decoder has no use for: outside the alphabet, no line
    break and not the padding character. *)
Definition base64_foreign (c : ascii) : bool :=
  (Base64.decodeMap c =? 255) && negb (Base64.is_newline c)
  && negb (Ascii.eqb c Base64.padChar).

(** * Properties *)

(** ** Bytes *)

Lemma byte_val_range (c : ascii) : 0 <= byte_val c < 256.
Proof.
  unfold byte_val. pose proof (N_ascii_bounded c). lia.
Qed.

Lemma to_byte_mod (z : Z) : to_byte z = ascii_of_N (Z.to_N (z mod 256)).
Proof.
  unfold to_byte. change 255 with (Z.ones 8).
  rewrite Z.land_ones by lia. reflexivity.
Qed.

Lemma to_byte_byte_val (c : ascii) (z : Z) : z mod 256 = byte_val c -> to_byte z = c.
Proof.
  intros H. rewrite to_byte_mod, H. unfold byte_val.
  rewrite N2Z.id. apply ascii_N_embedding.
Qed.

Lemma bytes_of_string_of_bytes (bz : bytes) : bytes_of_string (string_of_bytes bz) = bz.
Proof. apply list_ascii_of_string_of_list_ascii. Qed.

(** ** Bit packing as arithmetic *)

Lemma land_shiftl_low (hi lo k : Z) :
  0 <= k -> 0 <= lo < 2 ^ k -> Z.land (Z.shiftl hi k) lo = 0.
Proof.
  intros Hk Hlo. apply Z.bits_inj'. intros n Hn.
  rewrite Z.land_spec, Z.bits_0.
  destruct (Z.ltb_spec n k).
  - rewrite Z.shiftl_spec_low by lia. reflexivity.
  - rewrite <- (Z.mod_small lo (2 ^ k)) by lia.
    rewrite Z.mod_pow2_bits_high by lia. apply andb_false_r.
Qed.

Lemma lor_shiftl_add (hi lo k : Z) :
  0 <= k -> 0 <= lo < 2 ^ k -> Z.lor (Z.shiftl hi k) lo = hi * 2 ^ k + lo.
Proof.
  intros Hk Hlo.
  pose proof (Z.add_lor_land (Z.shiftl hi k) lo) as H.
  rewrite land_shiftl_low in H by assumption.
  rewrite Z.shiftl_mul_pow2 in * by assumption. lia.
Qed.

Lemma lor_add_disjoint (x y k : Z) :
  0 <= k -> x mod 2 ^ k = 0 -> 0 <= y < 2 ^ k -> Z.lor x y = x + y.
Proof.
  intros Hk Hx Hy.
  assert (Hpos : 0 < 2 ^ k) by (apply Z.pow_pos_nonneg; lia).
  assert (E : x = Z.shiftl (x / 2 ^ k) k).
  { rewrite Z.shiftl_mul_pow2 by lia.
    pose proof (Z.div_mod x (2 ^ k)). lia. }
  rewrite E at 1. rewrite lor_shiftl_add by assumption.
  pose proof (Z.div_mod x (2 ^ k)). lia.
Qed.

Lemma pack3_arith (a b c : Z) :
  0 <= a < 256 -> 0 <= b < 256 -> 0 <= c < 256 ->
  Base64.pack3 a b c = a * 65536 + b * 256 + c.
Proof.
  intros Ha Hb Hc. unfold Base64.pack3.
  rewrite !Z.shiftl_mul_pow2 by lia.
  change (2 ^ 16) with 65536. change (2 ^ 8) with 256.
  rewrite (lor_add_disjoint (a * 65536) (b * 256) 16); try lia.
  - rewrite (lor_add_disjoint (a * 65536 + b * 256) c 8); try lia.
    change (2 ^ 8) with 256. Z.div_mod_to_equations; lia.
  - change (2 ^ 16) with 65536. Z.div_mod_to_equations; lia.
Qed.

Lemma pack4_arith (d0 d1 d2 d3 : Z) :
  0 <= d0 < 64 -> 0 <= d1 < 64 -> 0 <= d2 < 64 -> 0 <= d3 < 64 ->
  Base64.pack4 d0 d1 d2 d3 = d0 * 262144 + d1 * 4096 + d2 * 64 + d3.
Proof.
  intros H0 H1 H2 H3. unfold Base64.pack4.
  rewrite !Z.shiftl_mul_pow2 by lia.
  change (2 ^ 18) with 262144. change (2 ^ 12) with 4096. change (2 ^ 6) with 64.
  rewrite (lor_add_disjoint (d0 * 262144) (d1 * 4096) 18); try lia.
  - rewrite (lor_add_disjoint (d0 * 262144 + d1 * 4096) (d2 * 64) 12); try lia.
    + rewrite (lor_add_disjoint (d0 * 262144 + d1 * 4096 + d2 * 64) d3 6); try lia.
      change (2 ^ 6) with 64. Z.div_mod_to_equations; lia.
    + change (2 ^ 12) with 4096. Z.div_mod_to_equations; lia.
  - change (2 ^ 18) with 262144. Z.div_mod_to_equations; lia.
Qed.

Lemma sextet_arith (val k : Z) :
  0 <= k -> Base64.sextet val k = (val / 2 ^ k) mod 64.
Proof.
  intros Hk. unfold Base64.sextet. change 63 with (Z.ones 6).
  rewrite Z.land_ones by lia. rewrite Z.shiftr_div_pow2 by lia. reflexivity.
Qed.

Lemma sextet_range (val k : Z) : 0 <= k -> 0 <= Base64.sextet val k < 64.
Proof.
  intros Hk. rewrite sextet_arith by assumption. apply Z.mod_pos_bound. lia.
Qed.

(** ** base64: decoding an encoding *)

Lemma decodeMap_encode (v : Z) :
  0 <= v < 64 -> Base64.decodeMap (Base64.encode v) = v.
Proof.
  intros Hv.
  assert (H : forallb (fun n => Base64.decodeMap (Base64.encode (Z.of_nat n)) =? Z.of_nat n)
                      (seq 0 64) = true) by (vm_compute; reflexivity).
  rewrite forallb_forall in H.
  specialize (H (Z.to_nat v)).
  rewrite Z2Nat.id in H by lia.
  apply Z.eqb_eq, H, in_seq. lia.
Qed.

Lemma decode_from_sextet (total : Z) (v : Z) (rest : bytes) (si : Z)
  (dbuf : list Z) (out : bytes) :
  0 <= v < 64 ->
  Base64.decode_from total (Base64.encode v :: rest) si dbuf out =
  if (List.length (dbuf ++ [v]) =? 4)%nat
  then Base64.decode_from total rest (si + 1) [] (out ++ Base64.assemble (dbuf ++ [v]))
  else Base64.decode_from total rest (si + 1) (dbuf ++ [v]) out.
Proof.
  intros Hv. cbn [Base64.decode_from].
  rewrite decodeMap_encode by assumption.
  replace (v =? 255) with false by (symmetry; apply Z.eqb_neq; lia).
  reflexivity.
Qed.

Lemma assemble_word (val : Z) (a b c : ascii) (n : nat) :
  0 <= val < 16777216 ->
  val = byte_val a * 65536 + byte_val b * 256 + byte_val c ->
  firstn n [ to_byte (Z.shiftr val 16); to_byte (Z.shiftr val 8);
             to_byte (Z.shiftr val 0) ] = firstn n [a; b; c].
Proof.
  intros Hv E.
  pose proof (byte_val_range a). pose proof (byte_val_range b).
  pose proof (byte_val_range c).
  f_equal. f_equal; [| f_equal; [| f_equal ]]; apply to_byte_byte_val;
    rewrite Z.shiftr_div_pow2 by lia;
    [ change (2 ^ 16) with 65536 | change (2 ^ 8) with 256 | change (2 ^ 0) with 1 ];
    Z.div_mod_to_equations; lia.
Qed.

Lemma assemble_spec (d0 d1 d2 d3 : Z) (a b c : ascii) (n : nat) :
  0 <= d0 < 64 -> 0 <= d1 < 64 -> 0 <= d2 < 64 -> 0 <= d3 < 64 ->
  d0 * 262144 + d1 * 4096 + d2 * 64 + d3 =
    byte_val a * 65536 + byte_val b * 256 + byte_val c ->
  firstn n [ to_byte (Z.shiftr (Base64.pack4 d0 d1 d2 d3) 16);
             to_byte (Z.shiftr (Base64.pack4 d0 d1 d2 d3) 8);
             to_byte (Z.shiftr (Base64.pack4 d0 d1 d2 d3) 0) ] = firstn n [a; b; c].
Proof.
  intros H0 H1 H2 H3 E.
  rewrite pack4_arith by assumption.
  pose proof (byte_val_range a). pose proof (byte_val_range b).
  pose proof (byte_val_range c).
  apply assemble_word; lia.
Qed.

Lemma list_ind3 {A : Type} (P : list A -> Prop) :
  P [] -> (forall a, P [a]) -> (forall a b, P [a; b]) ->
  (forall a b c l, P l -> P (a :: b :: c :: l)) ->
  forall l, P l.
Proof.
  intros H0 H1 H2 H3 l.
  assert (H : P l /\ (forall a, P (a :: l)) /\ (forall a b, P (a :: b :: l))).
  { induction l as [| x l IH].
    - auto.
    - destruct IH as (IH0 & IH1 & IH2). repeat split; auto. }
  apply H.
Qed.

Lemma decode_from_pad2 (total si d0 d1 : Z) (out : bytes) :
  Base64.decode_from total [Base64.padChar; Base64.padChar] si [d0; d1] out =
  (out ++ Base64.assemble [d0; d1], None).
Proof. reflexivity. Qed.

Lemma decode_from_pad1 (total si d0 d1 d2 : Z) (out : bytes) :
  Base64.decode_from total [Base64.padChar] si [d0; d1; d2] out =
  (out ++ Base64.assemble [d0; d1; d2], None).
Proof. reflexivity. Qed.

Ltac sextet_arith_tac :=
  rewrite ?sextet_arith by lia;
  rewrite ?Z.shiftl_mul_pow2 by lia;
  change (2 ^ 18) with 262144; change (2 ^ 16) with 65536;
  change (2 ^ 12) with 4096; change (2 ^ 8) with 256;
  change (2 ^ 6) with 64; change (2 ^ 0) with 1;
  Z.div_mod_to_equations; lia.

Lemma decode_from_Encode (bs : bytes) :
  forall (total si : Z) (out : bytes),
    Base64.decode_from total (Base64.Encode bs) si [] out = (out ++ bs, None).
Proof.
  induction bs as [| a | a b | a b c rest IH] using list_ind3; intros total si out.
  - cbn. rewrite app_nil_r. reflexivity.
  - cbn [Base64.Encode].
    pose proof (byte_val_range a) as Ha.
    set (val := Z.shiftl (byte_val a) 16).
    assert (Ev : val = byte_val a * 65536)
      by (unfold val; rewrite Z.shiftl_mul_pow2 by lia; reflexivity).
    rewrite !decode_from_sextet by (apply sextet_range; lia).
    cbn [List.length app Nat.eqb].
    rewrite decode_from_pad2. f_equal. f_equal.
    unfold Base64.assemble. cbn [nth List.length Nat.sub].
    apply (assemble_spec _ _ 0 0 a "000"%char "000"%char 1);
      try (apply sextet_range; lia); try lia.
    change (byte_val "000") with 0. rewrite Ev. sextet_arith_tac.
  - cbn [Base64.Encode].
    pose proof (byte_val_range a) as Ha. pose proof (byte_val_range b) as Hb.
    set (val := Z.lor _ _).
    assert (Ev : val = byte_val a * 65536 + byte_val b * 256).
    { unfold val. rewrite !Z.shiftl_mul_pow2 by lia.
      change (2 ^ 16) with 65536. change (2 ^ 8) with 256.
      apply (lor_add_disjoint _ _ 16); try lia.
      change (2 ^ 16) with 65536. Z.div_mod_to_equations; lia. }
    rewrite !decode_from_sextet by (apply sextet_range; lia).
    cbn [List.length app Nat.eqb].
    rewrite decode_from_pad1. f_equal. f_equal.
    unfold Base64.assemble. cbn [nth List.length Nat.sub].
    apply (assemble_spec _ _ _ 0 a b "000"%char 2);
      try (apply sextet_range; lia); try lia.
    change (byte_val "000") with 0. rewrite Ev. sextet_arith_tac.
  - cbn [Base64.Encode].
    pose proof (byte_val_range a) as Ha. pose proof (byte_val_range b) as Hb.
    pose proof (byte_val_range c) as Hc.
    set (val := Base64.pack3 _ _ _).
    assert (Ev : val = byte_val a * 65536 + byte_val b * 256 + byte_val c)
      by (apply pack3_arith; assumption).
    replace (Z.land val 63) with (Base64.sextet val 0)
      by (unfold Base64.sextet; rewrite Z.shiftr_0_r; reflexivity).
    rewrite !decode_from_sextet by (apply sextet_range; lia).
    cbn [List.length app Nat.eqb].
    rewrite IH. rewrite <- app_assoc. f_equal. f_equal.
    unfold Base64.assemble. cbn [nth List.length Nat.sub].
    change (a :: b :: c :: rest) with (firstn 3 [a; b; c] ++ rest).
    f_equal.
    apply (assemble_spec _ _ _ _ a b c 3); try (apply sextet_range; lia).
    rewrite Ev. sextet_arith_tac.
Qed.

Lemma DecodeString_EncodeToString (bs : bytes) :
  Base64.DecodeString (Base64.EncodeToString bs) = inr bs.
Proof.
  unfold Base64.DecodeString, Base64.EncodeToString, Base64.Decode.
  rewrite bytes_of_string_of_bytes, decode_from_Encode. reflexivity.
Qed.

(** ** strconv.ParseInt and decimal strings *)

Lemma digit_decimal (c : ascii) :
  Strconv.is_decimal_digit c = true ->
  Strconv.digit c = Some (byte_val c - 48) /\ 0 <= byte_val c - 48 < 10.
Proof.
  unfold Strconv.is_decimal_digit, Strconv.digit. intros H. rewrite H.
  apply andb_true_iff in H. destruct H as [H1 H2].
  apply Z.leb_le in H1. apply Z.leb_le in H2. split; [reflexivity | lia].
Qed.

Lemma digit_not_decimal (c : ascii) :
  Strconv.is_decimal_digit c = false ->
  match Strconv.digit c with
  | Some d => 10 <= d
  | None => True
  end.
Proof.
  unfold Strconv.is_decimal_digit, Strconv.digit. intros H. rewrite H.
  destruct ((97 <=? Strconv.lower (byte_val c)) && (Strconv.lower (byte_val c) <=? 122))
    eqn:E; [| exact I].
  apply andb_true_iff in E. destruct E as [E1 _]. apply Z.leb_le in E1. lia.
Qed.

Lemma digits_value_ge (cs : bytes) :
  forall acc m, 0 <= acc -> Strconv.digits_value cs acc = Some m -> acc <= m.
Proof.
  induction cs as [| c cs IH]; intros acc m Hacc H; cbn in H.
  - injection H as <-. lia.
  - destruct (Strconv.is_decimal_digit c) eqn:E; [| discriminate].
    destruct (digit_decimal c E) as [_ Hd].
    apply IH in H; lia.
Qed.

Lemma parseUint_loop_spec (s0 : string) (cs : bytes) :
  forall n, 0 <= n < 2 ^ 64 ->
    match Strconv.digits_value cs n with
    | Some v =>
        if v <? 2 ^ 64 then Strconv.parseUint_loop s0 cs n = (v, None)
        else Strconv.parseUint_loop s0 cs n =
             (2 ^ 64 - 1, Some (Strconv.rangeError "ParseUint" s0))
    | None =>
        Strconv.parseUint_loop s0 cs n = (0, Some (Strconv.syntaxError "ParseUint" s0))
        \/ Strconv.parseUint_loop s0 cs n =
           (2 ^ 64 - 1, Some (Strconv.rangeError "ParseUint" s0))
    end.
Proof.
  induction cs as [| c cs IH]; intros n Hn.
  - cbn [Strconv.digits_value Strconv.parseUint_loop].
    destruct (Z.ltb_spec n (2 ^ 64)); [reflexivity | lia].
  - cbn [Strconv.digits_value Strconv.parseUint_loop].
    change ((2 ^ 64 - 1) mod 2 ^ 64) with (2 ^ 64 - 1).
    change (Strconv.maxUint64 / 10 + 1) with 1844674407370955162.
    destruct (Strconv.is_decimal_digit c) eqn:E.
    + destruct (digit_decimal c E) as [-> Hd].
      set (d := byte_val c - 48) in *.
      destruct (Z.geb_spec d 10) as [Hge | _]; [lia |].
      destruct (Z.geb_spec n 1844674407370955162) as [Hcut | Hcut].
      * destruct (Strconv.digits_value cs (n * 10 + d)) as [v |] eqn:Ev.
        -- apply digits_value_ge in Ev; [| lia].
           destruct (Z.ltb_spec v (2 ^ 64)); [lia | reflexivity].
        -- right. reflexivity.
      * rewrite (Z.mod_small (n * 10)) by lia.
        destruct (Z_lt_ge_dec (n * 10 + d) (2 ^ 64)) as [Hlt | Hovf].
        -- rewrite (Z.mod_small (n * 10 + d)) by lia.
           destruct (Z.ltb_spec (n * 10 + d) (n * 10)) as [Hbad | _]; [lia |].
           destruct (Z.gtb_spec (n * 10 + d) (2 ^ 64 - 1)) as [Hbad | _]; [lia |].
           cbn [orb]. apply IH. lia.
        -- assert (Em : (n * 10 + d) mod 2 ^ 64 = n * 10 + d - 2 ^ 64).
           { symmetry. apply (Z.mod_unique _ _ 1); lia. }
           rewrite Em.
           destruct (Z.ltb_spec (n * 10 + d - 2 ^ 64) (n * 10)) as [_ | Hbad]; [| lia].
           cbn [orb].
           destruct (Strconv.digits_value cs (n * 10 + d)) as [v |] eqn:Ev.
           ++ apply digits_value_ge in Ev; [| lia].
              destruct (Z.ltb_spec v (2 ^ 64)); [lia | reflexivity].
           ++ right. reflexivity.
    + pose proof (digit_not_decimal c E) as Hd.
      destruct (Strconv.digit c) as [d |]; [| left; reflexivity].
      destruct (Z.geb_spec d 10) as [_ | Hlt]; [left; reflexivity | lia].
Qed.

Lemma unsigned_value_nonneg (cs : bytes) (v : Z) :
  Strconv.unsigned_value cs = Some v -> 0 <= v.
Proof.
  destruct cs as [| c cs]; [discriminate |].
  unfold Strconv.unsigned_value. intros H.
  apply digits_value_ge in H; lia.
Qed.

Lemma ParseUint_spec (s : string) :
  match Strconv.unsigned_value (bytes_of_string s) with
  | Some v =>
      if v <? 2 ^ 64 then Strconv.ParseUint s = (v, None)
      else Strconv.ParseUint s = (2 ^ 64 - 1, Some (Strconv.rangeError "ParseUint" s))
  | None =>
      Strconv.ParseUint s = (0, Some (Strconv.syntaxError "ParseUint" s))
      \/ Strconv.ParseUint s = (2 ^ 64 - 1, Some (Strconv.rangeError "ParseUint" s))
  end.
Proof.
  destruct s as [| c s].
  - left. reflexivity.
  - unfold Strconv.ParseUint.
    change (String.eqb (String c s) "") with false. cbv iota.
    change (Strconv.unsigned_value (bytes_of_string (String c s)))
      with (Strconv.digits_value (bytes_of_string (String c s)) 0).
    apply parseUint_loop_spec. lia.
Qed.

Lemma to_int64_small (z : Z) :
  - 2 ^ 63 <= z < 2 ^ 63 -> Strconv.to_int64 z = z.
Proof.
  intros H. unfold Strconv.to_int64. rewrite Z.mod_small; lia.
Qed.

Lemma parseInt_tail_spec (s0 s' : string) (neg : bool) :
  match Strconv.unsigned_value (bytes_of_string s') with
  | Some v =>
      let n := if neg then - v else v in
      if (- 2 ^ 63 <=? n) && (n <? 2 ^ 63)
      then Strconv.parseInt_tail s0 neg (Strconv.ParseUint s') = (n, None)
      else exists w, Strconv.parseInt_tail s0 neg (Strconv.ParseUint s') =
                     (w, Some (Strconv.rangeError "ParseInt" s0))
  | None => exists w e, Strconv.parseInt_tail s0 neg (Strconv.ParseUint s') = (w, Some e)
  end.
Proof.
  pose proof (ParseUint_spec s') as H.
  destruct (Strconv.unsigned_value (bytes_of_string s')) as [v |] eqn:Ev.
  - apply unsigned_value_nonneg in Ev.
    cbv zeta.
    destruct (Z.ltb_spec v (2 ^ 64)) as [Hv | Hv]; rewrite H; clear H.
    + unfold Strconv.parseInt_tail. cbv zeta iota.
      destruct neg; cbn [negb andb].
      * destruct (Z.gtb_spec v (2 ^ 63)) as [Hc | Hc].
        -- replace ((- 2 ^ 63 <=? - v) && (- v <? 2 ^ 63)) with false.
           ++ eexists. reflexivity.
           ++ symmetry. apply andb_false_iff. left. apply Z.leb_gt. lia.
        -- replace ((- 2 ^ 63 <=? - v) && (- v <? 2 ^ 63)) with true.
           ++ f_equal.
              destruct (Z.eq_dec v (2 ^ 63)) as [-> | Hne].
              ** reflexivity.
              ** rewrite (to_int64_small v) by lia. apply to_int64_small. lia.
           ++ symmetry. apply andb_true_iff. split; [apply Z.leb_le | apply Z.ltb_lt]; lia.
      * destruct (Z.geb_spec v (2 ^ 63)) as [Hc | Hc].
        -- replace ((- 2 ^ 63 <=? v) && (v <? 2 ^ 63)) with false.
           ++ eexists. reflexivity.
           ++ symmetry. apply andb_false_iff. right. apply Z.ltb_ge. lia.
        -- replace ((- 2 ^ 63 <=? v) && (v <? 2 ^ 63)) with true.
           ++ f_equal. apply to_int64_small. lia.
           ++ symmetry. apply andb_true_iff. split; [apply Z.leb_le | apply Z.ltb_lt]; lia.
    + replace ((- 2 ^ 63 <=? (if neg then - v else v)) && ((if neg then - v else v) <? 2 ^ 63))
        with false.
      * destruct neg; eexists; reflexivity.
      * symmetry. apply andb_false_iff.
        destruct neg; [left; apply Z.leb_gt | right; apply Z.ltb_ge]; lia.
  - destruct H as [H | H]; rewrite H.
    + do 2 eexists. reflexivity.
    + destruct neg; do 2 eexists; reflexivity.
Qed.

Lemma ParseInt_tail (c0 : ascii) (s1 : string) :
  Strconv.ParseInt (String c0 s1) =
  if Ascii.eqb c0 "+"%char then Strconv.parseInt_tail (String c0 s1) false (Strconv.ParseUint s1)
  else if Ascii.eqb c0 "-"%char then Strconv.parseInt_tail (String c0 s1) true (Strconv.ParseUint s1)
  else Strconv.parseInt_tail (String c0 s1) false (Strconv.ParseUint (String c0 s1)).
Proof.
  unfold Strconv.ParseInt.
  destruct (Ascii.eqb c0 "+"); [reflexivity |].
  destruct (Ascii.eqb c0 "-"); reflexivity.
Qed.

(** [ParseInt] accepts exactly the decimal strings whose value fits in 64
    bits, and returns that value. *)
Lemma ParseInt_spec (s : string) :
  match Strconv.decimal_value s with
  | Some n =>
      if (- 2 ^ 63 <=? n) && (n <? 2 ^ 63)
      then Strconv.ParseInt s = (n, None)
      else exists w, Strconv.ParseInt s = (w, Some (Strconv.rangeError "ParseInt" s))
  | None => exists w e, Strconv.ParseInt s = (w, Some e)
  end.
Proof.
  destruct s as [| c0 s1].
  - cbn. do 2 eexists. reflexivity.
  - rewrite ParseInt_tail. unfold Strconv.decimal_value.
    cbn [bytes_of_string list_ascii_of_string].
    destruct (Ascii.eqb c0 "+").
    + apply (parseInt_tail_spec (String c0 s1) s1 false).
    + destruct (Ascii.eqb c0 "-").
      * pose proof (parseInt_tail_spec (String c0 s1) s1 true) as H.
        fold (bytes_of_string s1).
        destruct (Strconv.unsigned_value (bytes_of_string s1)); exact H.
      * apply (parseInt_tail_spec (String c0 s1) (String c0 s1) false).
Qed.

(** ** The lookups *)

Lemma FindEventByType_inr (tx : Tx) (index : Z) (eventType : string) (ev : StringEvent) :
  FindEventByType tx index eventType = inr ev ->
  Type_ ev = eventType /\
  exists log, nth_error (Logs tx) (Z.to_nat index) = Some log /\ In ev (Events log).
Proof.
  unfold FindEventByType. intros H.
  destruct (find _ _) as [ev' |] eqn:F; [| discriminate].
  injection H as <-. apply find_some in F. destruct F as [Hin Heq].
  apply String.eqb_eq in Heq. split; [assumption |].
  destruct (index <? 0); [destruct Hin |].
  destruct (nth_error (Logs tx) (Z.to_nat index)) as [log |]; [| destruct Hin].
  exists log. auto.
Qed.

Lemma FindAttributeByKey_inr (tx : Tx) (ev : StringEvent) (key value : string) :
  FindAttributeByKey tx ev key = inr value ->
  exists attr, In attr (Attributes ev) /\ Key attr = key /\ Value attr = value.
Proof.
  unfold FindAttributeByKey. intros H.
  destruct (find _ _) as [a |] eqn:F; [| discriminate].
  injection H as <-. apply find_some in F. destruct F as [Hin Heq].
  apply String.eqb_eq in Heq. exists a. auto.
Qed.

(** ** The handlers *)

Lemma logs_nonempty (tx : Tx) :
  Logs tx <> [] -> (List.length (Logs tx) =? 0)%nat = false.
Proof.
  destruct (Logs tx); [congruence | reflexivity].
Qed.

Ltac unfold_handlers :=
  unfold run, HandleMsg, HandleMsgStoreCode, HandleMsgInstantiateContract,
    HandleMsgExecuteContract, HandleMsgMigrateContract, HandleMsgUpdateAdmin,
    HandleMsgClearAdmin, tx_FindEventByType, tx_FindAttributeByKey,
    source_GetContractInfo, db_call, bind, orErrorf, ret, call, lift.

(** One stage of a handler: the answer is the one a hypothesis gives, or
    either of the two. *)
Ltac stage :=
  match goal with
  | H : ?x = _ |- context [match ?x with _ => _ end] => rewrite H
  | |- context [match ?x with _ => _ end] =>
      lazymatch x with
      | context [match _ with _ => _ end] => fail
      | _ => destruct x eqn:?
      end
  end; cbv beta iota zeta.

Section HandlerFacts.

Variable MarshalJSON : RawContractMessage -> bytes * option error.
Variable time_Parse : string -> string -> error + Time.
Variable m : WasmModule.

Abbreviation handle := (HandleMsg MarshalJSON time_Parse m).

(** C2: for a message of any kind, when the transaction's list of logs is
    empty, [HandleMsg] returns no error and makes no call at all: no lookup,
    no resolution of contract metadata, no database operation, hence no
    record. *)
Theorem C2_empty_logs_no_error_no_call (index : Z) (msg : Msg) (tx : Tx) (t : list Call) :
  Logs tx = [] ->
  run (handle index msg tx) t = (None, t).
Proof.
  intros H. unfold run, HandleMsg. rewrite H. reflexivity.
Qed.

(** C8: with a non-empty list of logs, an update-admin message makes exactly
    one call, [UpdateContractAdmin] with the sender, the contract and the new
    admin of the message, and a clear-admin message exactly one call,
    [UpdateContractAdmin] with the empty string for the admin; no event or
    attribute lookup is made, and the database's answer, whatever admin the
    contract had, is returned. *)
Theorem C8_admin_update_single_call (index : Z) (tx : Tx) (t : list Call)
  (ua : MsgUpdateAdmin) (ca : MsgClearAdmin) :
  Logs tx <> [] ->
  run (handle index (UpdateAdmin ua) tx) t =
    (UpdateContractAdmin (db m) (ua_Sender ua) (ua_Contract ua) (ua_NewAdmin ua),
     t ++ [CallUpdateContractAdmin (ua_Sender ua) (ua_Contract ua) (ua_NewAdmin ua)])
  /\
  run (handle index (ClearAdmin ca) tx) t =
    (UpdateContractAdmin (db m) (ca_Sender ca) (ca_Contract ca) "",
     t ++ [CallUpdateContractAdmin (ca_Sender ca) (ca_Contract ca) ""]).
Proof.
  intros H. apply logs_nonempty in H. unfold_handlers. rewrite H.
  split.
  - destruct (UpdateContractAdmin (db m) (ua_Sender ua) (ua_Contract ua) (ua_NewAdmin ua));
      reflexivity.
  - destruct (UpdateContractAdmin (db m) (ca_Sender ca) (ca_Contract ca) "");
      reflexivity.
Qed.

(** C7: when the migrate event is found, carries the result-data attribute
    and the attribute decodes, [UpdateContractWithMsgMigrateContract] is
    called, once, with the sender, the contract, the code identifier and the
    payload of the message itself and with the decoded result data of the
    event; the event contributes nothing else. *)
Theorem C7_migrate_uses_message_fields (index : Z) (tx : Tx) (t : list Call)
  (msg : MsgMigrateContract) (event : StringEvent) (resultData : string)
  (resultDataBz : bytes) :
  Logs tx <> [] ->
  FindEventByType tx index EventTypeMigrate = inr event ->
  FindAttributeByKey tx event AttributeKeyResultDataHex = inr resultData ->
  Base64.DecodeString resultData = inr resultDataBz ->
  run (handle index (MigrateContract msg) tx) t =
    (UpdateContractWithMsgMigrateContract (db m) (mc_Sender msg) (mc_Contract msg)
       (mc_CodeID msg) (mc_Msg msg) (string_of_bytes resultDataBz),
     t ++ [ CallFindEventByType index EventTypeMigrate;
            CallFindAttributeByKey event AttributeKeyResultDataHex;
            CallUpdateContractWithMsgMigrateContract (mc_Sender msg) (mc_Contract msg)
              (mc_CodeID msg) (mc_Msg msg) (string_of_bytes resultDataBz) ]).
Proof.
  intros H Hev Hattr Hdec. apply logs_nonempty in H. unfold_handlers.
  rewrite H, Hev. cbv beta iota zeta. rewrite Hattr. cbv beta iota zeta.
  rewrite Hdec. cbv beta iota zeta.
  rewrite <- !app_assoc. cbn [app].
  destruct (UpdateContractWithMsgMigrateContract _ _ _ _ _ _); reflexivity.
Qed.

(** C1: with a non-empty list of logs, when a stage of a message's
    extraction fails (the lookup of the event, of an attribute, the base64
    decoding, the resolution of the contract metadata or the parsing of the
    timestamp), the handler returns an error, which is a stage's error under
    the handler's annotation, and the calls it made include no database
    operation: nothing is saved or updated, with a default or otherwise. *)
Theorem C1_failed_stage_no_persistence (index : Z) (msg : Msg) (tx : Tx) (t : list Call) :
  Logs tx <> [] ->
  extraction_fails time_Parse m tx index msg ->
  exists e calls,
    run (handle index msg tx) t = (Some e, t ++ calls) /\
    forallb (fun c => negb (is_persistence c)) calls = true /\
    exists format cause, e = Errorf format cause.
Proof.
  intros Hlogs Hf. apply logs_nonempty in Hlogs.
  inversion Hf; subst; unfold_handlers; rewrite Hlogs;
    repeat stage; rewrite <- ?app_assoc; cbn [app];
    try discriminate;
    do 2 eexists; (split; [reflexivity | split; [reflexivity | eauto]]).
Qed.

(** C4: when every stage of an instantiate extraction succeeds, the contract
    record handed to [SaveWasmContract] carries as its contract address the
    very value of the contract-address attribute found in the instantiate
    event of the log at the message's index. *)
Theorem C4_instantiate_contract_address (index : Z) (tx : Tx) (t : list Call)
  (msg : MsgInstantiateContract) (event : StringEvent)
  (contractAddress resultData : string) (resultDataBz : bytes)
  (contractInfo : ContractInfo) (timestamp : Time) :
  Logs tx <> [] ->
  FindEventByType tx index EventTypeInstantiate = inr event ->
  FindAttributeByKey tx event AttributeKeyContractAddr = inr contractAddress ->
  FindAttributeByKey tx event AttributeKeyResultDataHex = inr resultData ->
  Base64.DecodeString resultData = inr resultDataBz ->
  GetContractInfo (source m) (Height tx) contractAddress = inr contractInfo ->
  time_Parse RFC3339 (Timestamp tx) = inr timestamp ->
  exists contract,
    run (handle index (InstantiateContract msg) tx) t =
      (SaveWasmContract (db m) contract,
       t ++ [ CallFindEventByType index EventTypeInstantiate;
              CallFindAttributeByKey event AttributeKeyContractAddr;
              CallFindAttributeByKey event AttributeKeyResultDataHex;
              CallGetContractInfo (Height tx) contractAddress;
              CallSaveWasmContract contract ]) /\
    ContractAddress contract = contractAddress /\
    Type_ event = EventTypeInstantiate /\
    (exists log, nth_error (Logs tx) (Z.to_nat index) = Some log /\ In event (Events log)) /\
    (exists attr, In attr (Attributes event) /\ Key attr = AttributeKeyContractAddr /\
                  Value attr = ContractAddress contract).
Proof.
  intros Hlogs Hev Haddr Hres Hdec Hinfo Htime. apply logs_nonempty in Hlogs.
  destruct (FindEventByType_inr _ _ _ _ Hev) as [Hty Hlog].
  pose proof (FindAttributeByKey_inr _ _ _ _ Haddr) as Hattr.
  exists (NewWasmContract MarshalJSON (ic_Sender msg) (ic_Admin msg) (ic_CodeID msg)
            (ic_Label msg) (ic_Msg msg) (ic_Funds msg) contractAddress
            (string_of_bytes resultDataBz) timestamp (ci_Creator contractInfo)
            (ci_Extension contractInfo) (Height tx)).
  split; [| split; [| split; [exact Hty | split; [exact Hlog |]]]].
  - unfold_handlers. rewrite Hlogs, Hev. cbv beta iota zeta.
    rewrite Haddr. cbv beta iota zeta. rewrite Hres. cbv beta iota zeta.
    rewrite Hdec. cbv beta iota zeta. rewrite Hinfo. cbv beta iota zeta.
    rewrite Htime. cbv beta iota zeta.
    rewrite <- !app_assoc. cbn [app].
    destruct (SaveWasmContract _ _); reflexivity.
  - unfold NewWasmContract. destruct (MarshalJSON (ic_Msg msg)). reflexivity.
  - unfold NewWasmContract. destruct (MarshalJSON (ic_Msg msg)). exact Hattr.
Qed.

(** C5: in an instantiate extraction the contract-metadata resolver is
    called at most once: either not at all, or exactly once, after the
    lookup that found the contract-address attribute in the instantiate
    event, and with the transaction's height and that attribute's value. *)
Theorem C5_resolver_once_after_address (index : Z) (tx : Tx)
  (msg : MsgInstantiateContract) :
  let tr := snd (run (handle index (InstantiateContract msg) tx) []) in
  filter is_resolver tr = [] \/
  exists event contractAddress pre post,
    FindEventByType tx index EventTypeInstantiate = inr event /\
    FindAttributeByKey tx event AttributeKeyContractAddr = inr contractAddress /\
    tr = pre ++ CallGetContractInfo (Height tx) contractAddress :: post /\
    In (CallFindAttributeByKey event AttributeKeyContractAddr) pre /\
    filter is_resolver pre = [] /\
    filter is_resolver post = [].
Proof.
  cbv zeta. unfold_handlers.
  destruct (List.length (Logs tx) =? 0)%nat; [left; reflexivity |].
  destruct (FindEventByType tx index EventTypeInstantiate) as [e | event] eqn:Hev;
    cbv beta iota zeta; [left; reflexivity |].
  destruct (FindAttributeByKey tx event AttributeKeyContractAddr)
    as [e | contractAddress] eqn:Haddr; cbv beta iota zeta; [left; reflexivity |].
  destruct (FindAttributeByKey tx event AttributeKeyResultDataHex)
    as [e | resultData] eqn:Hres; cbv beta iota zeta; [left; reflexivity |].
  destruct (Base64.DecodeString resultData) as [e | resultDataBz] eqn:Hdec;
    cbv beta iota zeta; [left; reflexivity |].
  right.
  exists event, contractAddress,
    [ CallFindEventByType index EventTypeInstantiate;
      CallFindAttributeByKey event AttributeKeyContractAddr;
      CallFindAttributeByKey event AttributeKeyResultDataHex ].
  repeat stage; eexists;
    (split; [reflexivity | split; [exact Haddr | split; [reflexivity |]]]);
    (split; [cbn; auto | split; reflexivity]).
Qed.

(** C3, amended: when the store-code event is found and carries the
    code-identifier attribute, and the attribute is a decimal integer string
    whose value is not negative and fits in a signed 64-bit integer, the code
    record handed to [SaveWasmCode] has that integer as its code identifier
    and the transaction's height as its height; when the attribute is no
    decimal integer string, or its value lies outside the signed 64-bit
    range, the handler returns the error of the parsing stage and saves no
    record. *)
Theorem C3_code_id_within_int64 (index : Z) (tx : Tx) (t : list Call)
  (msg : MsgStoreCode) (event : StringEvent) (codeIDKey : string) :
  Logs tx <> [] ->
  FindEventByType tx index EventTypeStoreCode = inr event ->
  FindAttributeByKey tx event AttributeKeyCodeID = inr codeIDKey ->
  (forall n, Strconv.decimal_value codeIDKey = Some n -> 0 <= n < 2 ^ 63 ->
     exists code,
       run (handle index (StoreCode msg) tx) t =
         (SaveWasmCode (db m) code,
          t ++ [ CallFindEventByType index EventTypeStoreCode;
                 CallFindAttributeByKey event AttributeKeyCodeID;
                 CallSaveWasmCode code ]) /\
       wc_CodeID code = n /\ wc_Height code = Height tx)
  /\
  ((forall n, Strconv.decimal_value codeIDKey = Some n -> ~ (- 2 ^ 63 <= n < 2 ^ 63)) ->
     exists e,
       run (handle index (StoreCode msg) tx) t =
         (Some (Errorf "error while parsing code id to int64: %s" e),
          t ++ [ CallFindEventByType index EventTypeStoreCode;
                 CallFindAttributeByKey event AttributeKeyCodeID ])).
Proof.
  intros Hlogs Hev Hattr. apply logs_nonempty in Hlogs.
  pose proof (ParseInt_spec codeIDKey) as Hp.
  split.
  - intros n Hn Hrange. rewrite Hn in Hp.
    replace ((- 2 ^ 63 <=? n) && (n <? 2 ^ 63)) with true in Hp
      by (symmetry; apply andb_true_iff; split; [apply Z.leb_le | apply Z.ltb_lt]; lia).
    exists (NewWasmCode (sc_Sender msg) (sc_WASMByteCode msg)
              (sc_InstantiatePermission msg) n (Height tx)).
    split; [| split; [apply Z.mod_small; lia | reflexivity]].
    unfold_handlers. rewrite Hlogs, Hev. cbv beta iota zeta.
    rewrite Hattr. cbv beta iota zeta. rewrite Hp. unfold result_of.
    cbv beta iota zeta. rewrite <- !app_assoc. cbn [app].
    destruct (SaveWasmCode _ _); reflexivity.
  - intros Hbad.
    assert (He : exists w e, Strconv.ParseInt codeIDKey = (w, Some e)).
    { destruct (Strconv.decimal_value codeIDKey) as [n |]; [| exact Hp].
      destruct ((- 2 ^ 63 <=? n) && (n <? 2 ^ 63)) eqn:E.
      - exfalso. apply (Hbad n eq_refl).
        apply andb_true_iff in E. destruct E as [E1 E2].
        apply Z.leb_le in E1. apply Z.ltb_lt in E2. lia.
      - destruct Hp as [w Hw]. eauto. }
    destruct He as (w & e & He). exists e.
    unfold_handlers. rewrite Hlogs, Hev. cbv beta iota zeta.
    rewrite Hattr. cbv beta iota zeta. rewrite He. unfold result_of.
    cbv beta iota zeta. rewrite <- !app_assoc. cbn [app]. reflexivity.
Qed.

End HandlerFacts.

(** ** The record constructors *)

(** C10: the constructors of the contract record and of the execute record
    drop the error of [MarshalJSON]: for a raw message on which the marshaller
    fails, returning no bytes beside its error, the record is built all the
    same, every other field as given and the raw payload empty. *)
Theorem C10_marshal_error_discarded
  (MarshalJSON : RawContractMessage -> bytes * option error)
  (rawMsg : RawContractMessage) (e : error)
  (sender admin label contractAddress data creator contractInfoExtension : string)
  (codeID height : Z) (funds : Coins) (at_ : Time) :
  MarshalJSON rawMsg = ([], Some e) ->
  NewWasmContract MarshalJSON sender admin codeID label rawMsg funds contractAddress
    data at_ creator contractInfoExtension height =
    {| Sender := sender; Creator := creator; Admin := admin; CodeID := codeID;
       Label := label; RawContractMsg := []; Funds := funds;
       ContractAddress := contractAddress; Data := data; InstantiatedAt := at_;
       ContractInfoExtension := contractInfoExtension; wct_Height := height |}
  /\
  NewWasmExecuteContract MarshalJSON sender contractAddress rawMsg funds data at_ height =
    {| we_Sender := sender; we_ContractAddress := contractAddress;
       we_RawContractMsg := []; we_Funds := funds; we_Data := data;
       ExecutedAt := at_; we_Height := height |}.
Proof.
  intros H. unfold NewWasmContract, NewWasmExecuteContract. rewrite H.
  split; reflexivity.
Qed.

Lemma C10_witness :
  RawContractMsg
    (NewWasmContract failMarshalJSON "wasm1sender" "wasm1admin" 42 "label"
       (bytes_of_string "{") [] "wasm1contract" "A"
       {| unixNano := 0; zoneOffset := 0 |} "wasm1creator" "" 100) = []
  /\
  we_RawContractMsg
    (NewWasmExecuteContract failMarshalJSON "wasm1sender" "wasm1contract"
       (bytes_of_string "{") [] "A" {| unixNano := 0; zoneOffset := 0 |} 100) = [].
Proof.
  destruct (C10_marshal_error_discarded failMarshalJSON (bytes_of_string "{")
              (ExternalError "json: error calling MarshalJSON")
              "wasm1sender" "wasm1admin" "label" "wasm1contract" "A" "wasm1creator" ""
              42 100 [] {| unixNano := 0; zoneOffset := 0 |} eq_refl) as [H1 H2].
  rewrite H1, H2. split; reflexivity.
Defined.

(** ** base64 round trips *)

(** C6, as stated, fails: [QR==] decodes, to the byte [A], whose standard
    encoding is [QQ==]. *)
Lemma C6_counterexample_trailing_bits :
  Base64.DecodeString "QR==" = inr (bytes_of_string "A") /\
  Base64.EncodeToString (bytes_of_string "A") <> "QR==".
Proof.
  split; [reflexivity | discriminate].
Qed.

(** C6, amended: for every attribute string that is the standard base64
    encoding of a payload, the decoding used for result data succeeds, gives
    the payload back, and encoding the decoded bytes again reproduces the
    string exactly. *)
Theorem C6_roundtrip_of_standard_encoding (payload : bytes) (s : string) :
  s = Base64.EncodeToString payload ->
  exists bz, Base64.DecodeString s = inr bz /\ bz = payload /\
             Base64.EncodeToString bz = s.
Proof.
  intros ->. exists payload.
  split; [apply DecodeString_EncodeToString | split; reflexivity].
Qed.

Lemma C6_witness :
  exists bz, Base64.DecodeString "aGVsbG8gd29ybGQ=" = inr bz /\
             bz = bytes_of_string "hello world" /\
             Base64.EncodeToString bz = "aGVsbG8gd29ybGQ=".
Proof.
  apply (C6_roundtrip_of_standard_encoding (bytes_of_string "hello world")).
  reflexivity.
Defined.

(** ** The handlers on sample transactions *)

Lemma C2_witness :
  run (sampleHandleMsg 0 (InstantiateContract sampleInstantiate) emptyTx) [] = (None, []).
Proof.
  apply (C2_empty_logs_no_error_no_call passMarshalJSON sample_time_Parse sampleModule).
  reflexivity.
Defined.

Lemma C8_witness :
  run (sampleHandleMsg 0 (UpdateAdmin sampleUpdateAdmin) (sampleTx [])) [] =
    (None, [CallUpdateContractAdmin "wasm1sender" "wasm1contract" "wasm1newadmin"])
  /\
  run (sampleHandleMsg 0 (ClearAdmin sampleClearAdmin) (sampleTx [])) [] =
    (None, [CallUpdateContractAdmin "wasm1sender" "wasm1contract" ""]).
Proof.
  apply (C8_admin_update_single_call passMarshalJSON sample_time_Parse sampleModule
           0 (sampleTx []) [] sampleUpdateAdmin sampleClearAdmin).
  discriminate.
Defined.

Lemma C7_witness :
  run (sampleHandleMsg 0 (MigrateContract sampleMigrate)
         (sampleTx [resultEvent EventTypeMigrate "QQ=="])) [] =
    (None,
     [ CallFindEventByType 0 EventTypeMigrate;
       CallFindAttributeByKey (resultEvent EventTypeMigrate "QQ==")
         AttributeKeyResultDataHex;
       CallUpdateContractWithMsgMigrateContract "wasm1sender" "wasm1contract" 43
         (bytes_of_string "{}") "A" ]).
Proof.
  apply (C7_migrate_uses_message_fields passMarshalJSON sample_time_Parse sampleModule
           0 (sampleTx [resultEvent EventTypeMigrate "QQ=="]) [] sampleMigrate
           (resultEvent EventTypeMigrate "QQ==") "QQ==" (bytes_of_string "A")).
  - discriminate.
  - reflexivity.
  - reflexivity.
  - reflexivity.
Defined.

Lemma C1_witness :
  exists e calls,
    run (sampleHandleMsg 0 (ExecuteContract sampleExecute)
           (sampleTx [resultEvent EventTypeExecute "%%%"])) [] = (Some e, [] ++ calls) /\
    forallb (fun c => negb (is_persistence c)) calls = true /\
    exists format cause, e = Errorf format cause.
Proof.
  apply (C1_failed_stage_no_persistence passMarshalJSON sample_time_Parse sampleModule).
  - discriminate.
  - apply (execute_decode_fails sample_time_Parse sampleModule _ _ sampleExecute
             (resultEvent EventTypeExecute "%%%") "%%%" (CorruptInputError 0));
      reflexivity.
Defined.

Lemma C4_witness :
  exists contract,
    run (sampleHandleMsg 0 (InstantiateContract sampleInstantiate)
           (sampleTx [instantiateEvent "wasm1contract" "QQ=="])) [] =
      (SaveWasmContract sampleDatabase contract,
       [] ++ [ CallFindEventByType 0 EventTypeInstantiate;
               CallFindAttributeByKey (instantiateEvent "wasm1contract" "QQ==")
                 AttributeKeyContractAddr;
               CallFindAttributeByKey (instantiateEvent "wasm1contract" "QQ==")
                 AttributeKeyResultDataHex;
               CallGetContractInfo 100 "wasm1contract";
               CallSaveWasmContract contract ]) /\
    ContractAddress contract = "wasm1contract".
Proof.
  destruct (C4_instantiate_contract_address passMarshalJSON sample_time_Parse sampleModule
              0 (sampleTx [instantiateEvent "wasm1contract" "QQ=="]) [] sampleInstantiate
              (instantiateEvent "wasm1contract" "QQ==") "wasm1contract" "QQ=="
              (bytes_of_string "A")
              {| ci_Creator := "wasm1creator"; ci_Extension := "" |}
              {| unixNano := 1646136000000000000; zoneOffset := 0 |})
    as (contract & Hrun & Haddr & _);
    [ discriminate | reflexivity | reflexivity | reflexivity | reflexivity
    | reflexivity | reflexivity | ].
  exists contract. split; [exact Hrun | exact Haddr].
Defined.

(** C3, as stated, fails: [9223372036854775808] is a decimal integer string,
    yet the handler returns an error and saves no code record. *)
Lemma C3_counterexample_out_of_range :
  Strconv.decimal_value "9223372036854775808" = Some 9223372036854775808 /\
  run (sampleHandleMsg 0 (StoreCode sampleStoreCode)
         (sampleTx [storeCodeEvent "9223372036854775808"])) [] =
    (Some (Errorf "error while parsing code id to int64: %s"
             (NumError "ParseInt" "9223372036854775808" ErrRange)),
     [ CallFindEventByType 0 EventTypeStoreCode;
       CallFindAttributeByKey (storeCodeEvent "9223372036854775808")
         AttributeKeyCodeID ]).
Proof.
  split; reflexivity.
Qed.

Lemma C3_witness :
  exists code,
    run (sampleHandleMsg 0 (StoreCode sampleStoreCode) (sampleTx [storeCodeEvent "42"])) [] =
      (SaveWasmCode sampleDatabase code,
       [] ++ [ CallFindEventByType 0 EventTypeStoreCode;
               CallFindAttributeByKey (storeCodeEvent "42") AttributeKeyCodeID;
               CallSaveWasmCode code ]) /\
    wc_CodeID code = 42 /\ wc_Height code = 100.
Proof.
  destruct (C3_code_id_within_int64 passMarshalJSON sample_time_Parse sampleModule
              0 (sampleTx [storeCodeEvent "42"]) [] sampleStoreCode
              (storeCodeEvent "42") "42")
    as [Hok _]; [ discriminate | reflexivity | reflexivity | ].
  apply (Hok 42); [reflexivity | lia].
Defined.

(** C9: the annotations of three stages name another stage.  A store-code
    event that is missing is reported as a search for [EventTypeInstantiate],
    a code-identifier attribute that is missing as a search for
    [AttributeKeyContractAddr], and a failed resolution of the contract
    metadata as a failure to get a proposal. *)
Theorem C9_annotations_name_other_stages :
  run (sampleHandleMsg 0 (StoreCode sampleStoreCode) (sampleTx [])) [] =
    (Some (Errorf "error while searching for EventTypeInstantiate: %s"
             (NotFound "event" EventTypeStoreCode "A1B2")),
     [ CallFindEventByType 0 EventTypeStoreCode ])
  /\
  run (sampleHandleMsg 0 (StoreCode sampleStoreCode)
         (sampleTx [ {| Type_ := EventTypeStoreCode; Attributes := [] |} ])) [] =
    (Some (Errorf "error while searching for AttributeKeyContractAddr: %s"
             (NotFound "attribute" AttributeKeyCodeID "A1B2")),
     [ CallFindEventByType 0 EventTypeStoreCode;
       CallFindAttributeByKey {| Type_ := EventTypeStoreCode; Attributes := [] |}
         AttributeKeyCodeID ])
  /\
  run (sampleHandleMsg 0 (InstantiateContract sampleInstantiate)
         (sampleTx [instantiateEvent "wasm1other" "QQ=="])) [] =
    (Some (Errorf "error while getting proposal: %s"
             (ExternalError "contract not found")),
     [ CallFindEventByType 0 EventTypeInstantiate;
       CallFindAttributeByKey (instantiateEvent "wasm1other" "QQ==")
         AttributeKeyContractAddr;
       CallFindAttributeByKey (instantiateEvent "wasm1other" "QQ==")
         AttributeKeyResultDataHex;
       CallGetContractInfo 100 "wasm1other" ]).
Proof.
  repeat split.
Qed.

(** * Further properties *)

(** ** strconv.ParseInt, both ways *)

(** X15: [ParseInt(s, 10, 64)] succeeds with the value [n] exactly when [s] is
    a decimal integer string (an optional sign, then digits) that denotes [n]
    and [n] fits in a signed 64-bit integer. *)
Theorem ParseInt_succeeds_iff_decimal_in_range (s : string) (n : Z) :
  Strconv.ParseInt s = (n, None) <->
  Strconv.decimal_value s = Some n /\ - 2 ^ 63 <= n < 2 ^ 63.
Proof.
  pose proof (ParseInt_spec s) as Hp.
  destruct (Strconv.decimal_value s) as [v |].
  - destruct ((- 2 ^ 63 <=? v) && (v <? 2 ^ 63)) eqn:E.
    + apply andb_true_iff in E. destruct E as [E1 E2].
      apply Z.leb_le in E1. apply Z.ltb_lt in E2.
      rewrite Hp. split.
      * intros H. injection H as <-. split; [reflexivity | lia].
      * intros [H _]. injection H as <-. reflexivity.
    + destruct Hp as [w Hw]. rewrite Hw. split; [discriminate |].
      intros [H Hr]. injection H as <-.
      apply andb_false_iff in E.
      destruct E as [E | E]; [apply Z.leb_gt in E | apply Z.ltb_ge in E]; lia.
  - destruct Hp as (w & e & Hw). rewrite Hw.
    split; [discriminate | intros [H _]; discriminate].
Qed.

(** ** base64: bytes the decoder rejects *)

Lemma skip_newlines_keeps (b : ascii) (src : bytes) :
  forall si, In b src -> Base64.is_newline b = false ->
             In b (fst (Base64.skip_newlines src si)).
Proof.
  induction src as [| c rest IH]; intros si Hin Hb; [destruct Hin |].
  cbn [Base64.skip_newlines].
  destruct (Base64.is_newline c) eqn:E.
  - destruct Hin as [-> | Hin]; [congruence |]. apply IH; assumption.
  - exact Hin.
Qed.

Lemma after_padding_rejects (b : ascii) (rest : bytes) (si : Z) (dbuf : list Z)
  (out : bytes) :
  In b rest -> Base64.is_newline b = false ->
  exists bz e, Base64.after_padding rest si dbuf out = (bz, Some e).
Proof.
  intros Hin Hb. unfold Base64.after_padding.
  pose proof (skip_newlines_keeps b rest si Hin Hb) as Hk.
  destruct (Base64.skip_newlines rest si) as [rest' si'].
  destruct rest' as [| c' rest'']; [destruct Hk |].
  do 2 eexists. reflexivity.
Qed.

Lemma decode_from_rejects (b : ascii) (total : Z) (src : bytes) :
  base64_foreign b = true ->
  forall si dbuf out, In b src ->
    exists bz e, Base64.decode_from total src si dbuf out = (bz, Some e).
Proof.
  intros Hb. unfold base64_foreign in Hb.
  apply andb_true_iff in Hb. destruct Hb as [Hb Hpad].
  apply andb_true_iff in Hb. destruct Hb as [Hmap Hnl].
  apply negb_true_iff in Hnl. apply negb_true_iff in Hpad.
  induction src as [| c rest IH]; intros si dbuf out Hin; [destruct Hin |].
  cbn [Base64.decode_from].
  destruct (Base64.decodeMap c =? 255) eqn:Ec; cbn [negb].
  - destruct (Base64.is_newline c) eqn:En.
    + destruct Hin as [-> | Hin]; [congruence |]. apply IH. assumption.
    + destruct (Ascii.eqb c Base64.padChar) eqn:Ep; cbn [negb];
        [| do 2 eexists; reflexivity].
      destruct Hin as [-> | Hin]; [congruence |].
      destruct (List.length dbuf) as [| [| [| k]]];
        try (do 2 eexists; reflexivity).
      * pose proof (skip_newlines_keeps b rest (si + 1) Hin Hnl) as Hk.
        destruct (Base64.skip_newlines rest (si + 1)) as [rest' si'].
        destruct rest' as [| c' rest'']; [destruct Hk |].
        destruct (Ascii.eqb c' Base64.padChar) eqn:Ep'; cbn [negb];
          [| do 2 eexists; reflexivity].
        destruct Hk as [-> | Hk]; [congruence |].
        apply (after_padding_rejects b); assumption.
      * apply (after_padding_rejects b); assumption.
  - destruct Hin as [-> | Hin]; [congruence |].
    destruct (List.length (dbuf ++ [Base64.decodeMap c]) =? 4)%nat;
      apply IH; assumption.
Qed.

(** X14: a string that holds a byte outside the base64 alphabet, other than
    a line break or the padding character, does not decode: [DecodeString]
    returns an error, wherever the byte stands. *)
Theorem DecodeString_rejects_foreign_byte (s : string) (b : ascii) :
  In b (bytes_of_string s) ->
  base64_foreign b = true ->
  exists e, Base64.DecodeString s = inl e.
Proof.
  intros Hin Hb. unfold Base64.DecodeString, Base64.Decode.
  destruct (decode_from_rejects b (Z.of_nat (List.length (bytes_of_string s)))
              (bytes_of_string s) Hb 0 [] [] Hin) as (bz & e & H).
  rewrite H. exists e. reflexivity.
Qed.

Lemma DecodeString_rejects_foreign_byte_witness :
  exists e, Base64.DecodeString "QUJD%A==" = inl e.
Proof.
  apply (DecodeString_rejects_foreign_byte "QUJD%A==" "%"%char).
  - cbn. tauto.
  - reflexivity.
Defined.


(** ** The constructors and the marshaller *)

Lemma NewWasmContract_eq (MarshalJSON : RawContractMessage -> bytes * option error)
  (sender admin : string) (codeID : Z) (label : string) (rawMsg : RawContractMessage)
  (funds : Coins) (contractAddress data : string) (instantiatedAt : Time)
  (creator contractInfoExtension : string) (height : Z) :
  NewWasmContract MarshalJSON sender admin codeID label rawMsg funds contractAddress
    data instantiatedAt creator contractInfoExtension height =
  {| Sender := sender; Creator := creator; Admin := admin; CodeID := codeID;
     Label := label; RawContractMsg := fst (MarshalJSON rawMsg); Funds := funds;
     ContractAddress := contractAddress; Data := data;
     InstantiatedAt := instantiatedAt;
     ContractInfoExtension := contractInfoExtension; wct_Height := height |}.
Proof.
  unfold NewWasmContract. destruct (MarshalJSON rawMsg). reflexivity.
Qed.

Lemma NewWasmExecuteContract_eq
  (MarshalJSON : RawContractMessage -> bytes * option error)
  (sender contractAddress : string) (rawMsg : RawContractMessage) (funds : Coins)
  (data : string) (executedAt : Time) (height : Z) :
  NewWasmExecuteContract MarshalJSON sender contractAddress rawMsg funds data
    executedAt height =
  {| we_Sender := sender; we_ContractAddress := contractAddress;
     we_RawContractMsg := fst (MarshalJSON rawMsg); we_Funds := funds;
     we_Data := data; ExecutedAt := executedAt; we_Height := height |}.
Proof.
  unfold NewWasmExecuteContract. destruct (MarshalJSON rawMsg). reflexivity.
Qed.

(** X16: the records the two constructors build depend on the marshaller
    through the bytes it returns only, never through its error: two
    marshallers that return the same bytes for the raw message give the same
    contract record and the same execute record, and the two records hold the
    same raw payload. *)
Theorem constructors_ignore_marshal_error
  (MarshalJSON1 MarshalJSON2 : RawContractMessage -> bytes * option error)
  (rawMsg : RawContractMessage)
  (sender admin label contractAddress data creator contractInfoExtension : string)
  (codeID height : Z) (funds : Coins) (at_ : Time) :
  fst (MarshalJSON1 rawMsg) = fst (MarshalJSON2 rawMsg) ->
  NewWasmContract MarshalJSON1 sender admin codeID label rawMsg funds contractAddress
    data at_ creator contractInfoExtension height =
  NewWasmContract MarshalJSON2 sender admin codeID label rawMsg funds contractAddress
    data at_ creator contractInfoExtension height
  /\
  NewWasmExecuteContract MarshalJSON1 sender contractAddress rawMsg funds data at_ height =
  NewWasmExecuteContract MarshalJSON2 sender contractAddress rawMsg funds data at_ height
  /\
  RawContractMsg
    (NewWasmContract MarshalJSON1 sender admin codeID label rawMsg funds contractAddress
       data at_ creator contractInfoExtension height) =
  we_RawContractMsg
    (NewWasmExecuteContract MarshalJSON1 sender contractAddress rawMsg funds data at_ height).
Proof.
  intros H. rewrite !NewWasmContract_eq, !NewWasmExecuteContract_eq, H.
  repeat split.
Qed.

Lemma constructors_ignore_marshal_error_witness :
  NewWasmExecuteContract passMarshalJSON "wasm1sender" "wasm1contract" [] [] "A"
    {| unixNano := 0; zoneOffset := 0 |} 100 =
  NewWasmExecuteContract failMarshalJSON "wasm1sender" "wasm1contract" [] [] "A"
    {| unixNano := 0; zoneOffset := 0 |} 100.
Proof.
  apply (constructors_ignore_marshal_error passMarshalJSON failMarshalJSON []
           "wasm1sender" "" "" "wasm1contract" "A" "" "" 0 100 []
           {| unixNano := 0; zoneOffset := 0 |} eq_refl).
Defined.

(** ** The handlers, whatever the outcome *)

Ltac unfold_constructors :=
  rewrite ?NewWasmContract_eq, ?NewWasmExecuteContract_eq; unfold NewWasmCode.

Section HandlerInvariants.

Variable MarshalJSON : RawContractMessage -> bytes * option error.
Variable time_Parse : string -> string -> error + Time.
Variable m : WasmModule.

Abbreviation handle := (HandleMsg MarshalJSON time_Parse m).

Lemma app_eq_self (A : Type) (t l : list A) : t ++ l = t -> l = [].
Proof.
  intros H. apply (app_inv_head t). rewrite app_nil_r. exact H.
Qed.

(** X1: the handler makes no call at all exactly when the transaction has no
    logs or the message is of a kind the type switch has no case for; in both
    cases it returns no error. *)
Theorem no_call_iff_no_logs_or_unrecognized (index : Z) (msg : Msg) (tx : Tx)
  (t : list Call) :
  (snd (run (handle index msg tx) t) = t <->
   Logs tx = [] \/ recognized msg = false)
  /\
  (Logs tx = [] \/ recognized msg = false ->
   run (handle index msg tx) t = (None, t)).
Proof.
  assert (Hnone : Logs tx = [] \/ recognized msg = false ->
                  run (handle index msg tx) t = (None, t)).
  { intros [H | H]; unfold run, HandleMsg.
    - rewrite H. reflexivity.
    - destruct msg; try discriminate.
      destruct (List.length (Logs tx) =? 0)%nat; reflexivity. }
  split; [| exact Hnone].
  split; [| intros H; rewrite (Hnone H); reflexivity].
  destruct (Logs tx) as [| log logs] eqn:Hlogs; [auto |].
  destruct msg; cbn [recognized]; auto;
    intros H; exfalso; revert H;
    unfold_handlers; rewrite Hlogs; cbn [List.length Nat.eqb];
    repeat stage; cbn [snd]; rewrite <- ?app_assoc; cbn [app];
    intros H; apply app_eq_self in H; discriminate.
Qed.

(** X3: a handler makes at most one database operation, as its last call,
    and then returns the database's answer as it is, without an annotation. *)
Theorem persistence_is_last_and_returned (index : Z) (msg : Msg) (tx : Tx) :
  let r := run (handle index msg tx) [] in
  filter is_persistence (snd r) = [] \/
  exists pre c,
    snd r = pre ++ [c] /\ is_persistence c = true /\
    filter is_persistence pre = [] /\ fst r = db_answer (db m) c.
Proof.
  cbv zeta. unfold_handlers.
  destruct (List.length (Logs tx) =? 0)%nat; [left; reflexivity |].
  destruct msg; repeat stage; cbn [fst snd];
    first [ left; reflexivity
          | right; do 2 eexists;
            (split; [reflexivity | split; [reflexivity | split; [reflexivity |]]]);
            cbn [db_answer]; congruence ].
Qed.

(** X4: for a message of a recognized kind on a transaction with logs, the
    handler returns no error exactly when its last call is a database
    operation that the database accepted. *)
Theorem no_error_iff_persisted (index : Z) (msg : Msg) (tx : Tx) :
  Logs tx <> [] ->
  recognized msg = true ->
  let r := run (handle index msg tx) [] in
  fst r = None <->
  exists pre c, snd r = pre ++ [c] /\ is_persistence c = true /\
                db_answer (db m) c = None.
Proof.
  intros Hlogs Hrec. apply logs_nonempty in Hlogs. cbv zeta.
  unfold_handlers. rewrite Hlogs.
  destruct msg; try discriminate; repeat stage; cbn [fst snd];
    (split;
     [ try discriminate; intros _; do 2 eexists;
       (split; [reflexivity | split; [reflexivity |]]);
       cbn [db_answer]; congruence
     | intros (pre & pc & Htr & Hp & Hans);
       try reflexivity; exfalso;
       apply app_inj_tail in Htr; destruct Htr as [_ <-];
       cbn in Hp, Hans; congruence ]).
Qed.

(** X13: for a message of a recognized kind on a transaction with logs, the
    handler makes no database operation exactly when a stage of the
    extraction fails; when none fails, the record is saved or the update
    made. *)
Theorem no_persistence_iff_stage_fails (index : Z) (msg : Msg) (tx : Tx) :
  Logs tx <> [] ->
  recognized msg = true ->
  filter is_persistence (snd (run (handle index msg tx) [])) = [] <->
  extraction_fails time_Parse m tx index msg.
Proof.
  intros Hlogs Hrec. apply logs_nonempty in Hlogs.
  split.
  - unfold_handlers. rewrite Hlogs.
    destruct msg; try discriminate; repeat stage; cbn; try discriminate;
      intros _; solve [econstructor; eassumption].
  - intros Hf.
    inversion Hf; subst; unfold_handlers; rewrite Hlogs;
      repeat stage; try discriminate; reflexivity.
Qed.

(** X9: only an instantiate message has the contract metadata resolved: the
    handler of any other message never calls [GetContractInfo]. *)
Theorem resolver_only_for_instantiate (index : Z) (msg : Msg) (tx : Tx) :
  (forall ic, msg <> InstantiateContract ic) ->
  filter is_resolver (snd (run (handle index msg tx) [])) = [].
Proof.
  intros Hne. unfold_handlers.
  destruct (List.length (Logs tx) =? 0)%nat; [reflexivity |].
  destruct msg; try (exfalso; eapply Hne; reflexivity);
    repeat stage; reflexivity.
Qed.

(** X10: every record a handler saves, of code, of a contract or of an
    execution, carries the height of the transaction. *)
Theorem saved_records_carry_tx_height (index : Z) (msg : Msg) (tx : Tx) :
  Forall (fun c => match record_height c with
                   | Some h => h = Height tx
                   | None => True
                   end)
         (snd (run (handle index msg tx) [])).
Proof.
  unfold_handlers.
  destruct (List.length (Logs tx) =? 0)%nat; [constructor |].
  destruct msg; repeat stage; cbn [snd app]; unfold_constructors;
    repeat (constructor; cbn [record_height wc_Height wct_Height we_Height]; auto).
Qed.

(** X11: every database operation a handler makes is made for the sender of
    the message: the saved record, or the update, names that sender. *)
Theorem persistence_names_message_sender (index : Z) (msg : Msg) (tx : Tx) :
  Forall (fun c => match call_sender c with
                   | Some s => msg_sender msg = Some s
                   | None => True
                   end)
         (snd (run (handle index msg tx) [])).
Proof.
  unfold_handlers.
  destruct (List.length (Logs tx) =? 0)%nat; [constructor |].
  destruct msg; repeat stage; cbn [snd app]; unfold_constructors;
    repeat (constructor; cbn [call_sender msg_sender wc_Sender Sender we_Sender]; auto).
Qed.

(** X8: in an instantiate extraction on a transaction with logs, the
    contract metadata resolver is called exactly when the event is found, both
    attributes are found and the result data decodes, and then with the
    transaction's height and the contract address; neither the timestamp nor
    the database has a say in it. *)
Theorem resolver_called_iff_decoded (index : Z) (tx : Tx)
  (msg : MsgInstantiateContract) (h : Z) (a : string) :
  Logs tx <> [] ->
  In (CallGetContractInfo h a)
     (snd (run (handle index (InstantiateContract msg) tx) [])) <->
  h = Height tx /\
  exists event resultData resultDataBz,
    FindEventByType tx index EventTypeInstantiate = inr event /\
    FindAttributeByKey tx event AttributeKeyContractAddr = inr a /\
    FindAttributeByKey tx event AttributeKeyResultDataHex = inr resultData /\
    Base64.DecodeString resultData = inr resultDataBz.
Proof.
  intros Hlogs. apply logs_nonempty in Hlogs. split.
  - unfold_handlers. rewrite Hlogs.
    repeat stage; cbn [snd app In]; intros H;
      repeat (destruct H as [H | H]); try discriminate; try contradiction;
      injection H as <- <-; (split; [reflexivity |]);
      do 3 eexists; repeat split; eassumption.
  - intros (-> & event & resultData & resultDataBz & Hev & Haddr & Hres & Hdec).
    unfold_handlers. rewrite Hlogs.
    repeat stage; cbn [snd app In]; auto 10.
Qed.

(** X5: when every stage of an execute extraction succeeds, the handler
    makes the two lookups and then saves one record: sender, contract, funds
    and marshalled payload of the message, the decoded result data of the
    event, the parsed timestamp and the height of the transaction; the
    resolver is not consulted, and the database's answer is returned. *)
Theorem execute_success_record (index : Z) (tx : Tx) (t : list Call)
  (msg : MsgExecuteContract) (event : StringEvent) (resultData : string)
  (resultDataBz : bytes) (timestamp : Time) :
  Logs tx <> [] ->
  FindEventByType tx index EventTypeExecute = inr event ->
  FindAttributeByKey tx event AttributeKeyResultDataHex = inr resultData ->
  Base64.DecodeString resultData = inr resultDataBz ->
  time_Parse RFC3339 (Timestamp tx) = inr timestamp ->
  let execute :=
    {| we_Sender := ec_Sender msg;
       we_ContractAddress := ec_Contract msg;
       we_RawContractMsg := fst (MarshalJSON (ec_Msg msg));
       we_Funds := ec_Funds msg;
       we_Data := string_of_bytes resultDataBz;
       ExecutedAt := timestamp;
       we_Height := Height tx |} in
  run (handle index (ExecuteContract msg) tx) t =
    (SaveWasmExecuteContract (db m) execute,
     t ++ [ CallFindEventByType index EventTypeExecute;
            CallFindAttributeByKey event AttributeKeyResultDataHex;
            CallSaveWasmExecuteContract execute ]).
Proof.
  intros Hlogs Hev Hres Hdec Htime. apply logs_nonempty in Hlogs. cbv zeta.
  rewrite <- (NewWasmExecuteContract_eq MarshalJSON).
  unfold_handlers. rewrite Hlogs, Hev. cbv beta iota zeta.
  rewrite Hres. cbv beta iota zeta. rewrite Hdec. cbv beta iota zeta.
  rewrite Htime. cbv beta iota zeta.
  rewrite <- !app_assoc. cbn [app].
  destruct (SaveWasmExecuteContract _ _); reflexivity.
Qed.

(** X6: when every stage of an instantiate extraction succeeds, the record
    saved takes sender, admin, code identifier, label, funds and marshalled
    payload from the message, the contract address and the decoded result
    data from the event, creator and extension from the resolver's answer,
    the parsed timestamp and the height of the transaction. *)
Theorem instantiate_success_record (index : Z) (tx : Tx) (t : list Call)
  (msg : MsgInstantiateContract) (event : StringEvent)
  (contractAddress resultData : string) (resultDataBz : bytes)
  (contractInfo : ContractInfo) (timestamp : Time) :
  Logs tx <> [] ->
  FindEventByType tx index EventTypeInstantiate = inr event ->
  FindAttributeByKey tx event AttributeKeyContractAddr = inr contractAddress ->
  FindAttributeByKey tx event AttributeKeyResultDataHex = inr resultData ->
  Base64.DecodeString resultData = inr resultDataBz ->
  GetContractInfo (source m) (Height tx) contractAddress = inr contractInfo ->
  time_Parse RFC3339 (Timestamp tx) = inr timestamp ->
  let contract :=
    {| Sender := ic_Sender msg;
       Creator := ci_Creator contractInfo;
       Admin := ic_Admin msg;
       CodeID := ic_CodeID msg;
       Label := ic_Label msg;
       RawContractMsg := fst (MarshalJSON (ic_Msg msg));
       Funds := ic_Funds msg;
       ContractAddress := contractAddress;
       Data := string_of_bytes resultDataBz;
       InstantiatedAt := timestamp;
       ContractInfoExtension := ci_Extension contractInfo;
       wct_Height := Height tx |} in
  fst (run (handle index (InstantiateContract msg) tx) t) =
    SaveWasmContract (db m) contract /\
  last (snd (run (handle index (InstantiateContract msg) tx) t))
       (CallFindEventByType index EventTypeInstantiate) =
    CallSaveWasmContract contract.
Proof.
  intros Hlogs Hev Haddr Hres Hdec Hinfo Htime. apply logs_nonempty in Hlogs.
  cbv zeta. rewrite <- (NewWasmContract_eq MarshalJSON).
  unfold_handlers. rewrite Hlogs, Hev. cbv beta iota zeta.
  rewrite Haddr. cbv beta iota zeta. rewrite Hres. cbv beta iota zeta.
  rewrite Hdec. cbv beta iota zeta. rewrite Hinfo. cbv beta iota zeta.
  rewrite Htime. cbv beta iota zeta.
  destruct (SaveWasmContract _ _); cbn [fst snd];
    (split; [reflexivity | apply last_last]).
Qed.


(** X12: a result-data attribute that does not decode stops the execute, the
    migrate and the instantiate handler alike: the decoder's error is
    returned under the annotation of the decoding stage, after the lookups
    and before anything else, so that neither the resolver nor the database
    is called. *)
Theorem decode_failure_stops_extraction (index : Z) (tx : Tx) (t : list Call)
  (event : StringEvent) (resultData : string) (e : error) :
  Logs tx <> [] ->
  FindAttributeByKey tx event AttributeKeyResultDataHex = inr resultData ->
  Base64.DecodeString resultData = inl e ->
  (forall msg,
     FindEventByType tx index EventTypeExecute = inr event ->
     run (handle index (ExecuteContract msg) tx) t =
       (Some (Errorf "error while decoding result data: %s" e),
        t ++ [ CallFindEventByType index EventTypeExecute;
               CallFindAttributeByKey event AttributeKeyResultDataHex ]))
  /\
  (forall msg,
     FindEventByType tx index EventTypeMigrate = inr event ->
     run (handle index (MigrateContract msg) tx) t =
       (Some (Errorf "error while decoding result data: %s" e),
        t ++ [ CallFindEventByType index EventTypeMigrate;
               CallFindAttributeByKey event AttributeKeyResultDataHex ]))
  /\
  (forall msg contractAddress,
     FindEventByType tx index EventTypeInstantiate = inr event ->
     FindAttributeByKey tx event AttributeKeyContractAddr = inr contractAddress ->
     run (handle index (InstantiateContract msg) tx) t =
       (Some (Errorf "error while decoding result data: %s" e),
        t ++ [ CallFindEventByType index EventTypeInstantiate;
               CallFindAttributeByKey event AttributeKeyContractAddr;
               CallFindAttributeByKey event AttributeKeyResultDataHex ])).
Proof.
  intros Hlogs Hres Hdec. apply logs_nonempty in Hlogs.
  repeat split; intros; unfold_handlers; rewrite Hlogs;
    repeat stage; rewrite <- !app_assoc; reflexivity.
Qed.

End HandlerInvariants.

(** ** The invariants on sample transactions *)

Lemma no_error_iff_persisted_witness :
  fst (run (sampleHandleMsg 0 (ExecuteContract sampleExecute)
              (sampleTx [resultEvent EventTypeExecute "QQ=="])) []) = None <->
  exists pre c,
    snd (run (sampleHandleMsg 0 (ExecuteContract sampleExecute)
                (sampleTx [resultEvent EventTypeExecute "QQ=="])) []) = pre ++ [c] /\
    is_persistence c = true /\ db_answer sampleDatabase c = None.
Proof.
  apply (no_error_iff_persisted passMarshalJSON sample_time_Parse sampleModule 0
           (ExecuteContract sampleExecute)
           (sampleTx [resultEvent EventTypeExecute "QQ=="])).
  - discriminate.
  - reflexivity.
Defined.

Lemma no_persistence_iff_stage_fails_witness :
  filter is_persistence
    (snd (run (sampleHandleMsg 0 (MigrateContract sampleMigrate)
                 (sampleTx [resultEvent EventTypeExecute "QQ=="])) [])) = [] <->
  extraction_fails sample_time_Parse sampleModule
    (sampleTx [resultEvent EventTypeExecute "QQ=="]) 0 (MigrateContract sampleMigrate).
Proof.
  apply (no_persistence_iff_stage_fails passMarshalJSON sample_time_Parse sampleModule).
  - discriminate.
  - reflexivity.
Defined.

Lemma resolver_only_for_instantiate_witness :
  filter is_resolver
    (snd (run (sampleHandleMsg 0 (ExecuteContract sampleExecute)
                 (sampleTx [resultEvent EventTypeExecute "QQ=="])) [])) = [].
Proof.
  apply (resolver_only_for_instantiate passMarshalJSON sample_time_Parse sampleModule).
  intros ic. discriminate.
Defined.

Lemma resolver_called_iff_decoded_witness :
  In (CallGetContractInfo 100 "wasm1contract")
     (snd (run (sampleHandleMsg 0 (InstantiateContract sampleInstantiate)
                  (sampleTx [instantiateEvent "wasm1contract" "QQ=="])) [])) <->
  100 = Height (sampleTx [instantiateEvent "wasm1contract" "QQ=="]) /\
  exists event resultData resultDataBz,
    FindEventByType (sampleTx [instantiateEvent "wasm1contract" "QQ=="]) 0
      EventTypeInstantiate = inr event /\
    FindAttributeByKey (sampleTx [instantiateEvent "wasm1contract" "QQ=="]) event
      AttributeKeyContractAddr = inr "wasm1contract" /\
    FindAttributeByKey (sampleTx [instantiateEvent "wasm1contract" "QQ=="]) event
      AttributeKeyResultDataHex = inr resultData /\
    Base64.DecodeString resultData = inr resultDataBz.
Proof.
  apply (resolver_called_iff_decoded passMarshalJSON sample_time_Parse sampleModule).
  discriminate.
Defined.

Lemma execute_success_record_witness :
  run (sampleHandleMsg 0 (ExecuteContract sampleExecute)
         (sampleTx [resultEvent EventTypeExecute "QUJD"])) [] =
    (None,
     [ CallFindEventByType 0 EventTypeExecute;
       CallFindAttributeByKey (resultEvent EventTypeExecute "QUJD")
         AttributeKeyResultDataHex;
       CallSaveWasmExecuteContract
         {| we_Sender := "wasm1sender";
            we_ContractAddress := "wasm1contract";
            we_RawContractMsg := bytes_of_string "{}";
            we_Funds := [];
            we_Data := "ABC";
            ExecutedAt := {| unixNano := 1646136000000000000; zoneOffset := 0 |};
            we_Height := 100 |} ]).
Proof.
  apply (execute_success_record passMarshalJSON sample_time_Parse sampleModule 0
           (sampleTx [resultEvent EventTypeExecute "QUJD"]) [] sampleExecute
           (resultEvent EventTypeExecute "QUJD") "QUJD" (bytes_of_string "ABC")
           {| unixNano := 1646136000000000000; zoneOffset := 0 |}).
  - discriminate.
  - reflexivity.
  - reflexivity.
  - reflexivity.
  - reflexivity.
Defined.

Lemma instantiate_success_record_witness :
  last (snd (run (sampleHandleMsg 0 (InstantiateContract sampleInstantiate)
                    (sampleTx [instantiateEvent "wasm1contract" "QUJD"])) []))
       (CallFindEventByType 0 EventTypeInstantiate) =
  CallSaveWasmContract
    {| Sender := "wasm1sender";
       Creator := "wasm1creator";
       Admin := "wasm1admin";
       CodeID := 42;
       Label := "label";
       RawContractMsg := bytes_of_string "{}";
       Funds := [];
       ContractAddress := "wasm1contract";
       Data := "ABC";
       InstantiatedAt := {| unixNano := 1646136000000000000; zoneOffset := 0 |};
       ContractInfoExtension := "";
       wct_Height := 100 |}.
Proof.
  apply (instantiate_success_record passMarshalJSON sample_time_Parse sampleModule 0
           (sampleTx [instantiateEvent "wasm1contract" "QUJD"]) [] sampleInstantiate
           (instantiateEvent "wasm1contract" "QUJD") "wasm1contract" "QUJD"
           (bytes_of_string "ABC")
           {| ci_Creator := "wasm1creator"; ci_Extension := "" |}
           {| unixNano := 1646136000000000000; zoneOffset := 0 |});
    try reflexivity.
  discriminate.
Defined.


Lemma decode_failure_stops_extraction_witness :
  run (sampleHandleMsg 0 (ExecuteContract sampleExecute)
         (sampleTx [resultEvent EventTypeExecute "%%%"])) [] =
    (Some (Errorf "error while decoding result data: %s" (CorruptInputError 0)),
     [ CallFindEventByType 0 EventTypeExecute;
       CallFindAttributeByKey (resultEvent EventTypeExecute "%%%")
         AttributeKeyResultDataHex ]).
Proof.
  destruct (decode_failure_stops_extraction passMarshalJSON sample_time_Parse
              sampleModule 0 (sampleTx [resultEvent EventTypeExecute "%%%"]) []
              (resultEvent EventTypeExecute "%%%") "%%%" (CorruptInputError 0))
    as [Hexec _]; [discriminate | reflexivity | reflexivity |].
  apply (Hexec sampleExecute). reflexivity.
Defined.

(** ** What a handler does not read *)

(** X17: only the instantiate and the execute handler read the timestamp of
    the transaction: a store-code, migrate, update-admin or clear-admin
    message, and a message of no recognized kind, is handled the same
    whatever the timestamp, parsable or not. *)
Theorem timestamp_read_only_by_instantiate_and_execute
  (MarshalJSON : RawContractMessage -> bytes * option error)
  (time_Parse : string -> string -> error + Time) (m : WasmModule)
  (index : Z) (msg : Msg) (tx : Tx) (timestamp : string) (t : list Call) :
  (forall ic, msg <> InstantiateContract ic) ->
  (forall ec, msg <> ExecuteContract ec) ->
  run (HandleMsg MarshalJSON time_Parse m index msg (with_timestamp tx timestamp)) t =
  run (HandleMsg MarshalJSON time_Parse m index msg tx) t.
Proof.
  intros Hic Hec.
  destruct msg; try (exfalso; eapply Hic; reflexivity);
    try (exfalso; eapply Hec; reflexivity); reflexivity.
Qed.

Lemma timestamp_read_only_by_instantiate_and_execute_witness :
  run (sampleHandleMsg 0 (MigrateContract sampleMigrate)
         (with_timestamp (sampleTx [resultEvent EventTypeMigrate "QQ=="]) "yesterday")) [] =
  run (sampleHandleMsg 0 (MigrateContract sampleMigrate)
         (sampleTx [resultEvent EventTypeMigrate "QQ=="])) [].
Proof.
  apply (timestamp_read_only_by_instantiate_and_execute passMarshalJSON
           sample_time_Parse sampleModule 0 (MigrateContract sampleMigrate)).
  - intros ic. discriminate.
  - intros ec. discriminate.
Defined.
